(** * Chatbot: request lifecycle and cancellation protocol

    A shallow embedding of [main.py]: the background worker
    [OllamaWorker] (methods [run] and [stop]) and the part of [ChatWindow]
    that drives it ([handle_send_or_stop], [start_typing_animation],
    [type_next_char], [add_bubble]).

    Python values are modelled as they are in the program: a [str] is a
    sequence of Unicode code points, [bytes] a sequence of octets, a decoded
    JSON document a tree whose objects keep their members in document order
    and are read with [dict] semantics.  What the program obtains from the
    outside (the HTTP exchange, the moment the foreground thread calls
    [stop]) is a [World]; what it calls in the Python library ([bytes.decode],
    [json.loads]) is an interface, [PyLib], with a reference instance used to
    run the model on concrete documents. *)

From Stdlib Require Import NArith ZArith Lia Ascii String DecimalString.
From Stdlib.Strings Require Import Byte.
From stdpp Require Import base list option.

Set Warnings "-register-all".

(* ===================================================================== *)
(** ** Python values *)
(* ===================================================================== *)

Module Py.

Definition char := N.
Definition str := list char.
Definition bytes := list byte.

(** An ASCII literal of the source, as a [str]. *)
Definition lit (s : string) : str := map N_of_ascii (list_ascii_of_string s).
#[global] Arguments lit : simpl never.

(** [str.isspace] on one code point: the code points CPython lists as
    whitespace (bidirectional class WS, B or S, or category Zs). *)
Definition isspace (c : char) : bool :=
  ((9 <=? c) && (c <=? 13) || (28 <=? c) && (c <=? 32)
   || (c =? 133) || (c =? 160) || (c =? 5760)
   || (8192 <=? c) && (c <=? 8202)
   || (c =? 8232) || (c =? 8233) || (c =? 8239) || (c =? 8287)
   || (c =? 12288))%N.

Definition nonspace (c : char) : bool := negb (isspace c).

Fixpoint lstrip (s : str) : str :=
  match s with
  | c :: rest => if isspace c then lstrip rest else s
  | [] => []
  end.

Definition rstrip (s : str) : str := rev (lstrip (rev s)).

(** [s.strip()] with no argument. *)
Definition strip (s : str) : str := rstrip (lstrip s).

(** Truth value of a [str]: [if s] / [not s]. *)
Definition truthy (s : str) : bool :=
  match s with [] => false | _ :: _ => true end.

(** [str(n)] for an integer. *)
Definition str_of_int (z : Z) : str :=
  lit (NilZero.string_of_int (Z.to_int z)).

(** The classes of exception the program can meet; all of them derive from
    [Exception], so the worker's [except Exception] catches each one. *)
Inductive ExnClass :=
| ConnectionError | Timeout | HTTPError | ChunkedEncodingError
| UnicodeDecodeError | JSONDecodeError | RecursionError | ValueError
| KeyError | TypeError | RuntimeError.

(** An exception object: its class and what [str(e)] returns. *)
Record Exn := mkExn { exn_class : ExnClass; exn_str : str }.

(** The result of a call that may raise. *)
Inductive Exc (A : Type) :=
| Ok (a : A)
| Raise (e : Exn).
Arguments Ok {A} a.
Arguments Raise {A} e.

#[global] Instance Exc_ret : MRet Exc := fun A a => Ok a.
#[global] Instance Exc_bind : MBind Exc := fun A B f x =>
  match x with Ok a => f a | Raise e => Raise e end.

End Py.
Export Py.

(* ===================================================================== *)
(** ** Decoded JSON documents *)
(* ===================================================================== *)

Module Json.

(** What [json.loads] returns, and what [requests] takes as [json=]:
    [None], [bool], a number (kept as its literal), [str], [list],
    [dict].  An object keeps its members in document order. *)
Inductive value :=
| Null
| Bool (b : bool)
| Number (literal : str)
| String (s : str)
| Array (items : list value)
| Object (members : list (str * value)).

(** [d[key]] on the dict built from [members]: a later member with the
    same name replaces an earlier one. *)
Fixpoint dict_get (members : list (str * value)) (key : str) : option value :=
  match members with
  | [] => None
  | (k, v) :: rest =>
      match dict_get rest key with
      | Some v' => Some v'
      | None => if decide (k = key) then Some v else None
      end
  end.

(** The subscript [v[key]] with a [str] key. *)
Definition getitem (v : value) (key : str) : Exc value :=
  match v with
  | Object members =>
      match dict_get members key with
      | Some x => Ok x
      | None => Raise (mkExn KeyError (lit "'" ++ key ++ lit "'"))
      end
  | Array _ =>
      Raise (mkExn TypeError (lit "list indices must be integers or slices, not str"))
  | String _ =>
      Raise (mkExn TypeError (lit "string indices must be integers, not 'str'"))
  | Null =>
      Raise (mkExn TypeError (lit "'NoneType' object is not subscriptable"))
  | Bool _ =>
      Raise (mkExn TypeError (lit "'bool' object is not subscriptable"))
  | Number _ =>
      Raise (mkExn TypeError (lit "'int' object is not subscriptable"))
  end.

End Json.

(** The two Python library functions [run] calls on the body. *)
Class PyLib := {
  bytes_decode_utf8 : bytes -> Exc str;      (* b.decode("utf-8") *)
  json_loads : str -> Exc Json.value         (* json.loads(s) *)
}.

(* ===================================================================== *)
(** ** The HTTP exchange *)
(* ===================================================================== *)

Module Http.

(** The arguments of [session.post]. *)
Record Request := mkRequest {
  url : str;
  json : Json.value;
  stream : bool;
  timeout : Z                                (* seconds *)
}.

(** A response whose headers have arrived.  [iter_content n] is what the
    iterator [r.iter_content(chunk_size=n)] yields, item by item; an item
    is a chunk or the exception raised while reading it. *)
Record Response := mkResponse {
  status_code : Z;
  reason : str;
  iter_content : Z -> list (Exc bytes)
}.

(** [r.raise_for_status()]: [requests] raises [HTTPError] for a status in
    400..599 and returns otherwise. *)
Definition raise_for_status (u : str) (r : Response) : Exc unit :=
  if (400 <=? status_code r)%Z && (status_code r <? 500)%Z then
    Raise (mkExn HTTPError
             (str_of_int (status_code r) ++ lit " Client Error: " ++ reason r
              ++ lit " for url: " ++ u))
  else if (500 <=? status_code r)%Z && (status_code r <? 600)%Z then
    Raise (mkExn HTTPError
             (str_of_int (status_code r) ++ lit " Server Error: " ++ reason r
              ++ lit " for url: " ++ u))
  else Ok tt.

End Http.

Definition MODEL_NAME : str := lit "deepseek-r1:32b".
Definition OLLAMA_URL : str := lit "http://localhost:11434/api/chat".

(* ===================================================================== *)
(** ** OllamaWorker *)
(* ===================================================================== *)

Module OllamaWorker.

(** [requests.Session]: all the program does with it is post and close.
    [closed] records that [close()] has been called on it. *)
Record Session := mkSession { closed : bool }.

(** [Session.close()]; it does not raise.  It closes the session's
    adapters, and an adapter clears its pool manager, which closes the
    idle connections kept in the pools.  A connection that carries an
    exchange has been taken out of its pool; with [stream=True] it stays
    with the response, which [run] holds in its local [r], until the
    response is closed.  So this call does not reach the connection of
    an exchange in flight, and a worker object has no other handle on
    it. *)
Definition Session_close (s : Session) : Exc Session :=
  Ok {| closed := true |}.

(** The worker object.  [isRunning] is the state of the [QThread] it
    inherits from. *)
Record t := mk {
  prompt : str;
  stop_requested : bool;
  session : Session;
  isRunning : bool
}.

(** [OllamaWorker(prompt)]. *)
Definition new (p : str) : t :=
  {| prompt := p; stop_requested := false;
     session := {| closed := false |}; isRunning := false |}.

(** [QThread.start()]. *)
Definition start (w : t) : t :=
  {| prompt := prompt w; stop_requested := stop_requested w;
     session := session w; isRunning := true |}.

(** The thread has left [run]. *)
Definition finished (w : t) : t :=
  {| prompt := prompt w; stop_requested := stop_requested w;
     session := session w; isRunning := false |}.

Definition stop (w : t) : t :=
  let w1 := {| prompt := prompt w; stop_requested := true;
               session := session w; isRunning := isRunning w |} in
  match Session_close (session w1) with          (* try *)
  | Ok s => {| prompt := prompt w1; stop_requested := stop_requested w1;
               session := s; isRunning := isRunning w1 |}
  | Raise _ => w1                                  (* except Exception: pass *)
  end.

(** What [run] does that can be seen from outside, in order. *)
Inductive Event :=
| EvReadFlag (b : bool)           (* a read of [self.stop_requested] *)
| EvPost (req : Http.Request)     (* [self.session.post(...)] *)
| EvIterContent (chunk_size : Z)  (* [r.iter_content(chunk_size=...)] *)
| EvChunk (chunk : bytes)         (* one item taken from the iterator *)
| EvClose                         (* [r.close()] *)
| EvEmitResult (text : str)       (* [self.result_ready.emit(text)] *)
| EvEmitError (message : str).    (* [self.error.emit(message)] *)

(** What one execution of [run] meets: whether the foreground thread
    calls [stop()] just before the worker's [n]-th read of the flag, and
    what the endpoint answers.  [run] looks at the flag only at its reads,
    so a call of [stop()] between two reads is a call before the later
    one; what closing the session does to the exchange is part of what
    [post] and the body iterator answer, which is arbitrary. *)
Record World := mkWorld {
  stop_called : nat -> bool;
  post : Http.Request -> Exc Http.Response
}.

(** The state [run] threads: the worker object, the number of reads of
    the flag so far, the events so far. *)
Record St := mkSt {
  self : t;
  reads : nat;
  trace : list Event
}.

(** How a block ends: it falls through, raises, or executes [return]. *)
Inductive Flow (A : Type) :=
| Normal (a : A)
| Raised (e : Exn)
| Returned.
Arguments Normal {A} a.
Arguments Raised {A} e.
Arguments Returned {A}.

Definition M (A : Type) : Type := St -> Flow A * St.

#[global] Instance M_ret : MRet M := fun A a s => (Normal a, s).
#[global] Instance M_bind : MBind M := fun A B f m s =>
  match m s with
  | (Normal a, s') => f a s'
  | (Raised e, s') => (Raised e, s')
  | (Returned, s') => (Returned, s')
  end.

Definition raise {A} (e : Exn) : M A := fun s => (Raised e, s).
Definition return_ {A} : M A := fun s => (Returned, s).
Definition lift {A} (x : Exc A) : M A :=
  match x with Ok a => mret a | Raise e => raise e end.
Definition log (ev : Event) : M unit := fun s =>
  (Normal tt, {| self := self s; reads := reads s; trace := trace s ++ [ev] |}).
Definition get_self : M t := fun s => (Normal (self s), s).

(** [try: body  except Exception as e: handler e]. *)
Definition try_except (body : M unit) (handler : Exn -> M unit) : M unit :=
  fun s =>
    match body s with
    | (Raised e, s') => handler e s'
    | other => other
    end.

(** [with ... as r: body]: [Response.__exit__] closes [r] however the
    body ends. *)
Definition with_response (body : M unit) : M unit := fun s =>
  let (o, s') := body s in
  (o, {| self := self s'; reads := reads s'; trace := trace s' ++ [EvClose] |}).

(** The [TypeError] of a [pyqtSignal(str)] given something else than a
    [str]. *)
Definition unexpected_type : Exn :=
  mkExn TypeError
    (lit "OllamaWorker.result_ready[str].emit(): argument 1 has unexpected type").

Section Run.
Context `{PyLib}.
Variable W : World.

(** The worker object as the worker thread finds it at its next read
    of the flag: the foreground thread may have called [stop()] in the
    meantime. *)
Definition current (s : St) : t :=
  if stop_called W (reads s) then stop (self s) else self s.

(** One read of [self.stop_requested] by the worker thread. *)
Definition read_stop_requested : M bool := fun s =>
  let w := current s in
  (Normal (stop_requested w),
   {| self := w; reads := S (reads s);
      trace := trace s ++ [EvReadFlag (stop_requested w)] |}).

Definition session_post (req : Http.Request) : M Http.Response :=
  log (EvPost req) ;; lift (post W req).

(** [self.result_ready.emit(v)]: the signal is declared
    [pyqtSignal(str)], so only a [str] is emitted; any other value
    raises [TypeError]. *)
Definition result_ready_emit (v : Json.value) : M unit :=
  match v with
  | Json.String text => log (EvEmitResult text)
  | _ => raise unexpected_type
  end.

Definition error_emit (message : str) : M unit := log (EvEmitError message).

Definition payload (p : str) : Json.value :=
  Json.Object
    [ (lit "model", Json.String MODEL_NAME);
      (lit "messages",
        Json.Array [ Json.Object [ (lit "role", Json.String (lit "user"));
                                   (lit "content", Json.String p) ] ]);
      (lit "stream", Json.Bool false) ].

Definition request (p : str) : Http.Request :=
  {| Http.url := OLLAMA_URL; Http.json := payload p;
     Http.stream := true; Http.timeout := 600 |}.

(** [for chunk in r.iter_content(chunk_size=1024): ...], over the items
    the iterator still has to yield. *)
Fixpoint for_chunk (items : list (Exc bytes)) (chunks : list bytes)
  : M (list bytes) :=
  match items with
  | [] => mret chunks
  | Raise e :: _ => raise e
  | Ok chunk :: rest =>
      log (EvChunk chunk) ;;
      b ← read_stop_requested;
      if b : bool then
        log EvClose ;;
        return_
      else
        for_chunk rest (match chunk with
                        | [] => chunks
                        | _ :: _ => chunks ++ [chunk]
                        end)
  end.

Definition run : M unit :=
  b ← read_stop_requested;
  if b : bool then return_ else
  try_except
    (w ← get_self;
     r ← session_post (request (prompt w));
     with_response
       (b ← read_stop_requested;
        if b : bool then
          log EvClose ;;
          return_
        else
          lift (Http.raise_for_status OLLAMA_URL r) ;;
          log (EvIterContent 1024) ;;
          chunks ← for_chunk (Http.iter_content r 1024) [];
          data ← lift (bytes_decode_utf8 (concat chunks));
          data ← lift (json_loads data);
          b ← read_stop_requested;
          if negb b then
            message ← lift (Json.getitem data (lit "message"));
            content ← lift (Json.getitem message (lit "content"));
            result_ready_emit content
          else mret tt))
    (fun e =>
       b ← read_stop_requested;
       if negb b then error_emit (exn_str e) else mret tt).

End Run.

(** *** The blocks of [run]

    The same text as in [run], block by block, so that each can be
    reasoned about on its own ([run_blocks] below shows that [run] is
    made of them). *)
Section Blocks.
Context `{PyLib}.
Variable W : World.

(** The [except] block. *)
Definition handler (e : Exn) : M unit :=
  b ← read_stop_requested W;
  if negb b then error_emit (exn_str e) else mret tt.

(** From the last check to the emission, for the decoded document. *)
Definition finish (data : Json.value) : M unit :=
  b ← read_stop_requested W;
  if negb b then
    message ← lift (Json.getitem data (lit "message"));
    content ← lift (Json.getitem message (lit "content"));
    result_ready_emit content
  else mret tt.

(** The body of the [with] statement. *)
Definition body (r : Http.Response) : M unit :=
  b ← read_stop_requested W;
  if b : bool then
    log EvClose ;;
    return_
  else
    lift (Http.raise_for_status OLLAMA_URL r) ;;
    log (EvIterContent 1024) ;;
    chunks ← for_chunk W (Http.iter_content r 1024) [];
    data ← lift (bytes_decode_utf8 (concat chunks));
    data ← lift (json_loads data);
    finish data.

(** The [try] block. *)
Definition attempt : M unit :=
  w ← get_self;
  r ← session_post W (request (prompt w));
  with_response (body r).

End Blocks.

(** The state in which the thread enters [run]. *)
Definition enter (w : t) : St := {| self := w; reads := 0; trace := [] |}.

(** The signals of an event list, in order. *)
Definition is_emission (ev : Event) : bool :=
  match ev with
  | EvEmitResult _ | EvEmitError _ => true
  | _ => false
  end.

Definition emitted (tr : list Event) : list Event := List.filter is_emission tr.

Definition is_post (ev : Event) : bool :=
  match ev with EvPost _ => true | _ => false end.

(** The chunks taken from the body iterator, in order. *)
Fixpoint chunks_of (tr : list Event) : list bytes :=
  match tr with
  | [] => []
  | EvChunk c :: rest => c :: chunks_of rest
  | _ :: rest => chunks_of rest
  end.

(** The events of one execution of [run] by worker [w] in world [W]. *)
Definition events `{PyLib} (W : World) (w : t) : list Event :=
  trace (snd (run W (enter w))).

(** How that execution ends. *)
Definition ending `{PyLib} (W : World) (w : t) : Flow unit :=
  fst (run W (enter w)).

(** The foreground thread never calls [stop()] while [run] executes. *)
Definition never_stopped (W : World) : Prop :=
  forall n, stop_called W n = false.

(** *** The ways an execution can go *)

(** What the [except] block appends for exception [e]: the check, and
    the error signal when the check finds the flag clear. *)
Definition on_failure (e : Exn) (b : bool) : list Event :=
  EvReadFlag b :: (if b then [] else [EvEmitError (exn_str e)]).

(** The events of the chunk loop. *)
Definition loop_event (ev : Event) : Prop :=
  match ev with
  | EvChunk _ | EvReadFlag _ | EvClose => True
  | _ => False
  end.

(** [t] is a possible event list of the chunk loop over the body of
    [r]: only loop events, and the chunks taken are the first items of
    [r.iter_content(1024)]. *)
Definition loop_trace (r : Http.Response) (t : list Event) : Prop :=
  Forall loop_event t
  /\ exists rest, map Ok (chunks_of t) ++ rest = Http.iter_content r 1024.

(** How the [with] body can end and with which events. *)
Inductive body_path (r : Http.Response) : Flow unit -> list Event -> Prop :=
| bp_headers :
    body_path r Returned [EvReadFlag true; EvClose]
| bp_status e :
    Http.raise_for_status OLLAMA_URL r = Raise e ->
    body_path r (Raised e) [EvReadFlag false]
| bp_chunk t :
    loop_trace r t ->
    body_path r Returned (EvReadFlag false :: EvIterContent 1024 :: t)
| bp_body_raises e t :
    loop_trace r t -> ~ In (EvReadFlag true) t ->
    body_path r (Raised e) (EvReadFlag false :: EvIterContent 1024 :: t)
| bp_late_stop t :
    loop_trace r t ->
    body_path r (Normal tt)
      (EvReadFlag false :: EvIterContent 1024 :: t ++ [EvReadFlag true])
| bp_emit_raises e t :
    loop_trace r t -> ~ In (EvReadFlag true) t ->
    body_path r (Raised e)
      (EvReadFlag false :: EvIterContent 1024 :: t ++ [EvReadFlag false])
| bp_result text t :
    loop_trace r t -> ~ In (EvReadFlag true) t ->
    body_path r (Normal tt)
      (EvReadFlag false :: EvIterContent 1024 :: t
         ++ [EvReadFlag false; EvEmitResult text]).

(** How [run] can end for prompt [p] and with which events. *)
Inductive run_path (W : World) (p : str) : Flow unit -> list Event -> Prop :=
| rp_entry :
    run_path W p Returned [EvReadFlag true]
| rp_post_raises e b :
    post W (request p) = Raise e ->
    run_path W p (Normal tt)
      (EvReadFlag false :: EvPost (request p) :: on_failure e b)
| rp_body r o t :
    post W (request p) = Ok r ->
    body_path r o t ->
    (forall e, o <> Raised e) ->
    run_path W p o (EvReadFlag false :: EvPost (request p) :: t ++ [EvClose])
| rp_body_raises r e b t :
    post W (request p) = Ok r ->
    body_path r (Raised e) t ->
    run_path W p (Normal tt)
      (EvReadFlag false :: EvPost (request p) :: t ++ [EvClose] ++ on_failure e b).

(** *** What a run that is not cancelled computes *)

Section Answer.
Context `{PyLib}.

(** The items of the body iterator, up to the first that raises. *)
Fixpoint collect (items : list (Exc bytes)) : Exc (list bytes) :=
  match items with
  | [] => Ok []
  | Ok chunk :: rest => chunks ← collect rest; Ok (chunk :: chunks)
  | Raise e :: _ => Raise e
  end.

(** [data["message"]["content"]], as a [str] the signal accepts. *)
Definition extract (data : Json.value) : Exc str :=
  message ← Json.getitem data (lit "message");
  content ← Json.getitem message (lit "content");
  match content with
  | Json.String text => Ok text
  | _ => Raise unexpected_type
  end.

(** From a response to the content, without the checks. *)
Definition reply (r : Http.Response) : Exc str :=
  Http.raise_for_status OLLAMA_URL r ;;
  chunks ← collect (Http.iter_content r 1024);
  text ← bytes_decode_utf8 (concat chunks);
  data ← json_loads text;
  extract data.

(** The exchange from request to content, without the checks. *)
Definition answer (W : World) (p : str) : Exc str :=
  r ← post W (request p);
  reply r.


(** The signal that reports an answer. *)
Definition signal (a : Exc str) : Event :=
  match a with
  | Ok text => EvEmitResult text
  | Raise e => EvEmitError (exn_str e)
  end.

End Answer.

End OllamaWorker.

(* ===================================================================== *)
(** ** ChatWindow *)
(* ===================================================================== *)

Module ChatWindow.

Inductive Icon := send_icon | stop_icon.

(** A message bubble: the text its label shows and who sent it. *)
Record Bubble := mkBubble { text_label : str; sender : str }.

(** The window object.  Bubbles are only ever appended to the layout, so
    a bubble is referred to by its position in [chat_layout].  [workers]
    is the store of the worker objects created so far, in order of
    creation, and [ai_worker] refers to one of them; an object stays in
    the store after the window has dropped its reference to it, so the
    store says nothing about how long an object lives. *)
Record t := mk {
  chat_layout : list Bubble;
  input_line : str;
  send_btn : Icon;
  typing_timer : bool;                 (* the timer is active *)
  pending_text : str;
  typing_index : nat;
  current_bubble_label : option nat;
  workers : list OllamaWorker.t;
  ai_worker : option nat;
  ai_thinking : bool
}.

(** [ChatWindow()]. *)
Definition new : t :=
  {| chat_layout := []; input_line := []; send_btn := send_icon;
     typing_timer := false; pending_text := []; typing_index := 0;
     current_bubble_label := None; workers := []; ai_worker := None;
     ai_thinking := false |}.

Definition set_chat_layout (x : list Bubble) (w : t) : t :=
  mk x (input_line w) (send_btn w) (typing_timer w) (pending_text w)
     (typing_index w) (current_bubble_label w) (workers w) (ai_worker w)
     (ai_thinking w).
Definition set_input_line (x : str) (w : t) : t :=
  mk (chat_layout w) x (send_btn w) (typing_timer w) (pending_text w)
     (typing_index w) (current_bubble_label w) (workers w) (ai_worker w)
     (ai_thinking w).
Definition set_send_btn (x : Icon) (w : t) : t :=
  mk (chat_layout w) (input_line w) x (typing_timer w) (pending_text w)
     (typing_index w) (current_bubble_label w) (workers w) (ai_worker w)
     (ai_thinking w).
Definition set_typing_timer (x : bool) (w : t) : t :=
  mk (chat_layout w) (input_line w) (send_btn w) x (pending_text w)
     (typing_index w) (current_bubble_label w) (workers w) (ai_worker w)
     (ai_thinking w).
Definition set_pending_text (x : str) (w : t) : t :=
  mk (chat_layout w) (input_line w) (send_btn w) (typing_timer w) x
     (typing_index w) (current_bubble_label w) (workers w) (ai_worker w)
     (ai_thinking w).
Definition set_typing_index (x : nat) (w : t) : t :=
  mk (chat_layout w) (input_line w) (send_btn w) (typing_timer w)
     (pending_text w) x (current_bubble_label w) (workers w) (ai_worker w)
     (ai_thinking w).
Definition set_current_bubble_label (x : option nat) (w : t) : t :=
  mk (chat_layout w) (input_line w) (send_btn w) (typing_timer w)
     (pending_text w) (typing_index w) x (workers w) (ai_worker w)
     (ai_thinking w).
Definition set_workers (x : list OllamaWorker.t) (w : t) : t :=
  mk (chat_layout w) (input_line w) (send_btn w) (typing_timer w)
     (pending_text w) (typing_index w) (current_bubble_label w) x
     (ai_worker w) (ai_thinking w).
Definition set_ai_worker (x : option nat) (w : t) : t :=
  mk (chat_layout w) (input_line w) (send_btn w) (typing_timer w)
     (pending_text w) (typing_index w) (current_bubble_label w) (workers w)
     x (ai_thinking w).
Definition set_ai_thinking (x : bool) (w : t) : t :=
  mk (chat_layout w) (input_line w) (send_btn w) (typing_timer w)
     (pending_text w) (typing_index w) (current_bubble_label w) (workers w)
     (ai_worker w) x.

(** [bubble.text_label.setText(text)] on the bubble at position [b]. *)
Definition setText (b : nat) (text : str) (w : t) : t :=
  set_chat_layout
    (alter (fun bubble => mkBubble text (sender bubble)) b (chat_layout w)) w.

(** Appends a new bubble and returns a reference to it. *)
Definition add_bubble (text sender : str) (w : t) : nat * t :=
  (length (chat_layout w),
   set_chat_layout (chat_layout w ++ [mkBubble text sender]) w).

Definition handle_send_or_stop (self : t) : t :=
  if ai_thinking self then
    (* Stop AI processing *)
    let self :=
      match ai_worker self with
      | Some r =>
          match workers self !! r with
          | Some w =>
              if OllamaWorker.isRunning w
              then set_workers (<[r := OllamaWorker.stop w]> (workers self)) self
              else self
          | None => self
          end
      | None => self
      end in
    let self := set_typing_timer false self in
    let self :=
      match current_bubble_label self with
      | Some b => setText b (pending_text self) self
      | None => self
      end in
    let self := set_ai_thinking false self in
    set_send_btn send_icon self
  else
    (* Otherwise, normal send *)
    let msg := strip (input_line self) in
    if negb (truthy msg) then self else
    let self := snd (add_bubble msg (lit "User") self) in
    let self := set_input_line [] self in
    (* Start AI processing *)
    let r := length (workers self) in
    let self := set_workers (workers self ++ [OllamaWorker.new msg]) self in
    let self := set_ai_worker (Some r) self in
    let self := set_workers (alter OllamaWorker.start r (workers self)) self in
    let self := set_ai_thinking true self in
    set_send_btn stop_icon self.

(** The two updates of the stop branch, on their own: what happens to
    the worker the window owns ([stop()] if its thread is running)... *)
Definition stop_owned (self : t) : list OllamaWorker.t :=
  match ai_worker self with
  | Some r =>
      match workers self !! r with
      | Some w =>
          if OllamaWorker.isRunning w
          then <[r := OllamaWorker.stop w]> (workers self)
          else workers self
      | None => workers self
      end
  | None => workers self
  end.

(** ... and to the layout (the current bubble, if any, shows the whole
    pending text). *)
Definition complete_bubble (self : t) : list Bubble :=
  match current_bubble_label self with
  | Some b => alter (fun bubble => mkBubble (pending_text self) (sender bubble)) b
                (chat_layout self)
  | None => chat_layout self
  end.

Definition start_typing_animation (text : str) (self : t) : t :=
  if negb (truthy text) then
    (* AI returned empty, no bubble *)
    let self := set_ai_thinking false self in
    set_send_btn send_icon self
  else
    let bubble := length (chat_layout self) in
    let self := set_current_bubble_label (Some bubble) self in
    let self :=
      set_chat_layout (chat_layout self ++ [mkBubble (lit "...") (lit "AI")]) self in
    let self := set_pending_text text self in
    let self := set_typing_index 0 self in
    let self := setText bubble [] self in
    set_typing_timer true self.

(** The timer's slot.  Reading [text_label] of [None] raises. *)
Definition type_next_char (self : t) : Exc t :=
  if (typing_index self <? length (pending_text self))%nat then
    match current_bubble_label self with
    | Some b =>
        match chat_layout self !! b, pending_text self !! typing_index self with
        | Some bubble, Some c =>
            let self := setText b (text_label bubble ++ [c]) self in
            Ok (set_typing_index (typing_index self + 1) self)
        | _, _ => Raise (mkExn RuntimeError (lit "wrapped C/C++ object has been deleted"))
        end
    | None =>
        Raise (mkExn TypeError (lit "'NoneType' object has no attribute 'text_label'"))
    end
  else
    let self := set_typing_timer false self in
    let self := set_ai_thinking false self in
    Ok (set_send_btn send_icon self).

(** The slots connected to a worker's signals in [handle_send_or_stop]:
    [result_ready] to [start_typing_animation], [error] to the lambda that
    adds an ["Error: ..."] bubble. *)
Definition on_signal (ev : OllamaWorker.Event) (self : t) : t :=
  match ev with
  | OllamaWorker.EvEmitResult text => start_typing_animation text self
  | OllamaWorker.EvEmitError e => snd (add_bubble (lit "Error: " ++ e) (lit "AI") self)
  | _ => self
  end.

(** The signals of a run, delivered to their slots in order. *)
Definition deliver (signals : list OllamaWorker.Event) (self : t) : t :=
  foldl (fun window ev => on_signal ev window) self signals.

(** [n] expiries of the typing timer. *)
Fixpoint ticks (n : nat) (self : t) : Exc t :=
  match n with
  | O => Ok self
  | S n' => self' ← type_next_char self; ticks n' self'
  end.

(** The thread of worker [r] has ended. *)
Definition thread_finished (r : nat) (self : t) : t :=
  set_workers (alter OllamaWorker.finished r (workers self)) self.

(** The user types [text] into the input line. *)
Definition type_text (text : str) (self : t) : t := set_input_line text self.

(** What the user sees. *)
Definition visible (self : t) : list Bubble * str * Icon * bool :=
  (chat_layout self, input_line self, send_btn self, typing_timer self).

End ChatWindow.

(* ===================================================================== *)
(** ** A reference instance of the library interface *)
(* ===================================================================== *)

Module Reference.

(** *** Strict UTF-8, as [bytes.decode("utf-8")] *)

Definition undecodable {A} : Exc A :=
  Raise (mkExn UnicodeDecodeError (lit "'utf-8' codec can't decode byte: invalid byte")).

Definition between (lo hi : N) (b : byte) : bool :=
  ((lo <=? Byte.to_N b) && (Byte.to_N b <=? hi))%N.

Definition low6 (b : byte) : N := N.land (Byte.to_N b) 63.

Fixpoint utf8_decode (bs : bytes) : Exc str :=
  match bs with
  | [] => Ok []
  | b0 :: rest =>
      let n0 := Byte.to_N b0 in
      if (n0 <? 128)%N then
        s ← utf8_decode rest; Ok (n0 :: s)
      else if between 194 223 b0 then
        match rest with
        | b1 :: rest1 =>
            if between 128 191 b1 then
              s ← utf8_decode rest1;
              Ok ((N.shiftl (N.land n0 31) 6 + low6 b1)%N :: s)
            else undecodable
        | _ => undecodable
        end
      else if between 224 239 b0 then
        match rest with
        | b1 :: b2 :: rest2 =>
            if between (if (n0 =? 224)%N then 160 else 128)
                       (if (n0 =? 237)%N then 159 else 191) b1
               && between 128 191 b2 then
              s ← utf8_decode rest2;
              Ok ((N.shiftl (N.land n0 15) 12 + N.shiftl (low6 b1) 6 + low6 b2)%N :: s)
            else undecodable
        | _ => undecodable
        end
      else if between 240 244 b0 then
        match rest with
        | b1 :: b2 :: b3 :: rest3 =>
            if between (if (n0 =? 240)%N then 144 else 128)
                       (if (n0 =? 244)%N then 143 else 191) b1
               && between 128 191 b2 && between 128 191 b3 then
              s ← utf8_decode rest3;
              Ok ((N.shiftl (N.land n0 7) 18 + N.shiftl (low6 b1) 12
                   + N.shiftl (low6 b2) 6 + low6 b3)%N :: s)
            else undecodable
        | _ => undecodable
        end
      else undecodable
  end.

(** *** A JSON decoder after [json.decoder] *)

Definition malformed {A} (what : string) : Exc A :=
  Raise (mkExn JSONDecodeError (lit what)).

Definition is_ws (c : char) : bool :=
  ((c =? 32) || (c =? 9) || (c =? 10) || (c =? 13))%N.

Fixpoint skip_ws (s : str) : str :=
  match s with
  | c :: rest => if is_ws c then skip_ws rest else s
  | [] => []
  end.

Definition is_digit (c : char) : bool := ((48 <=? c) && (c <=? 57))%N.

Definition hex_digit (c : char) : option N :=
  if is_digit c then Some (c - 48)%N
  else if ((97 <=? c) && (c <=? 102))%N then Some (c - 87)%N
  else if ((65 <=? c) && (c <=? 70))%N then Some (c - 55)%N
  else None.

(** The four hexadecimal digits of a [\uXXXX] escape. *)
Definition decode_uXXXX (a b c d : char) : Exc N :=
  match hex_digit a, hex_digit b, hex_digit c, hex_digit d with
  | Some x, Some y, Some z, Some w => Ok (4096 * x + 256 * y + 16 * z + w)%N
  | _, _, _, _ => malformed "Invalid \uXXXX escape"
  end.

Definition simple_escape (c : char) : option char :=
  if (c =? 34)%N then Some 34%N            (* quotation mark *)
  else if (c =? 92)%N then Some 92%N       (* reverse solidus *)
  else if (c =? 47)%N then Some 47%N       (* solidus *)
  else if (c =? 98)%N then Some 8%N        (* b *)
  else if (c =? 102)%N then Some 12%N      (* f *)
  else if (c =? 110)%N then Some 10%N      (* n *)
  else if (c =? 114)%N then Some 13%N      (* r *)
  else if (c =? 116)%N then Some 9%N       (* t *)
  else None.

(** [scanstring], strict mode, from just after the opening quote. *)
Fixpoint scanstring (s : str) (acc : str) : Exc (str * str) :=
  match s with
  | [] => malformed "Unterminated string starting at"
  | c :: rest =>
      if (c =? 34)%N then Ok (acc, rest)
      else if (c =? 92)%N then
        match rest with
        | [] => malformed "Unterminated string starting at"
        | e :: rest1 =>
            if (e =? 117)%N then
              match rest1 with
              | h1 :: h2 :: h3 :: h4 :: rest2 =>
                  uni ← decode_uXXXX h1 h2 h3 h4;
                  if ((55296 <=? uni) && (uni <=? 56319))%N then
                    match rest2 with
                    | bs :: u :: rest3 =>
                        if ((bs =? 92) && (u =? 117))%N then
                          match rest3 with
                          | g1 :: g2 :: g3 :: g4 :: rest4 =>
                              uni2 ← decode_uXXXX g1 g2 g3 g4;
                              if ((56320 <=? uni2) && (uni2 <=? 57343))%N then
                                scanstring rest4
                                  (acc ++ [(65536 + (1024 * (uni - 55296)
                                                     + (uni2 - 56320)))%N])
                              else scanstring rest2 (acc ++ [uni])
                          | _ => malformed "Invalid \uXXXX escape"
                          end
                        else scanstring rest2 (acc ++ [uni])
                    | _ => scanstring rest2 (acc ++ [uni])
                    end
                  else scanstring rest2 (acc ++ [uni])
              | _ => malformed "Invalid \uXXXX escape"
              end
            else
              match simple_escape e with
              | Some x => scanstring rest1 (acc ++ [x])
              | None => malformed "Invalid \escape"
              end
        end
      else if (c <? 32)%N then malformed "Invalid control character at"
      else scanstring rest (acc ++ [c])
  end.

Fixpoint span_digits (s : str) : str * str :=
  match s with
  | c :: rest =>
      if is_digit c then let (ds, r) := span_digits rest in (c :: ds, r)
      else ([], s)
  | [] => ([], [])
  end.

(** The longest prefix that is a number: an optional minus sign, then a
    zero or a non-zero digit followed by digits, then optionally a point
    with at least one digit, then optionally an exponent ([e] or [E], an
    optional sign, at least one digit). *)
Definition match_number (s : str) : option (str * str) :=
  let (sign, s1) :=
    match s with
    | c :: r => if (c =? 45)%N then ([c], r) else ([], s)
    | [] => ([], s)
    end in
  let integer :=
    match s1 with
    | d :: r =>
        if (d =? 48)%N then Some ([d], r)
        else if is_digit d then let (ds, r') := span_digits r in Some (d :: ds, r')
        else None
    | [] => None
    end in
  match integer with
  | None => None
  | Some (int, s2) =>
      let (frac, s3) :=
        match s2 with
        | p :: r =>
            if (p =? 46)%N then
              match span_digits r with
              | ([], _) => ([], s2)
              | (ds, r') => (p :: ds, r')
              end
            else ([], s2)
        | [] => ([], s2)
        end in
      let (exp, s4) :=
        match s3 with
        | e :: r =>
            if ((e =? 101) || (e =? 69))%N then
              let (sg, r1) :=
                match r with
                | c :: r' => if ((c =? 45) || (c =? 43))%N then ([c], r') else ([], r)
                | [] => ([], r)
                end in
              match span_digits r1 with
              | ([], _) => ([], s3)
              | (ds, r') => (e :: sg ++ ds, r')
              end
            else ([], s3)
        | [] => ([], s3)
        end in
      Some (sign ++ int ++ frac ++ exp, s4)
  end.

(** [s] starts with the ASCII word [w]; the rest of [s] after it. *)
Fixpoint after_prefix (w s : str) : option str :=
  match w, s with
  | [], _ => Some s
  | a :: w', b :: s' => if (a =? b)%N then after_prefix w' s' else None
  | _ :: _, [] => None
  end.

Definition constant (s : str) : option (Json.value * str) :=
  match after_prefix (lit "null") s with
  | Some r => Some (Json.Null, r)
  | None =>
  match after_prefix (lit "true") s with
  | Some r => Some (Json.Bool true, r)
  | None =>
  match after_prefix (lit "false") s with
  | Some r => Some (Json.Bool false, r)
  | None =>
  match match_number s with
  | Some (n, r) => Some (Json.Number n, r)
  | None =>
  match after_prefix (lit "NaN") s with
  | Some r => Some (Json.Number (lit "NaN"), r)
  | None =>
  match after_prefix (lit "Infinity") s with
  | Some r => Some (Json.Number (lit "Infinity"), r)
  | None =>
  match after_prefix (lit "-Infinity") s with
  | Some r => Some (Json.Number (lit "-Infinity"), r)
  | None => None
  end end end end end end end.

(** [scan_once] with its object and array loops.  [fuel] bounds the
    depth of the calls; a document of [n] characters needs at most [n]. *)
Fixpoint scan_once (fuel : nat) (s : str) : Exc (Json.value * str) :=
  match fuel with
  | O => Raise (mkExn RecursionError (lit "maximum recursion depth exceeded"))
  | S fuel' =>
      match s with
      | [] => malformed "Expecting value"
      | c :: rest =>
          if (c =? 34)%N then
            '(text, r) ← scanstring rest []; Ok (Json.String text, r)
          else if (c =? 123)%N then
            match skip_ws rest with
            | d :: r =>
                if (d =? 125)%N then Ok (Json.Object [], r)
                else if (d =? 34)%N then members fuel' r []
                else malformed "Expecting property name enclosed in double quotes"
            | [] => malformed "Expecting property name enclosed in double quotes"
            end
          else if (c =? 91)%N then
            match skip_ws rest with
            | d :: r =>
                if (d =? 93)%N then Ok (Json.Array [], r)
                else items fuel' (d :: r) []
            | [] => malformed "Expecting value"
            end
          else
            match constant s with
            | Some x => Ok x
            | None => malformed "Expecting value"
            end
      end
  end
with members (fuel : nat) (s : str) (pairs : list (str * Json.value))
  : Exc (Json.value * str) :=
  match fuel with
  | O => Raise (mkExn RecursionError (lit "maximum recursion depth exceeded"))
  | S fuel' =>
      '(key, s1) ← scanstring s [];
      match skip_ws s1 with
      | c :: s2 =>
          if (c =? 58)%N then
            '(v, s3) ← scan_once fuel' (skip_ws s2);
            match skip_ws s3 with
            | d :: s4 =>
                if (d =? 125)%N then Ok (Json.Object (pairs ++ [(key, v)]), s4)
                else if (d =? 44)%N then
                  match skip_ws s4 with
                  | q :: s5 =>
                      if (q =? 34)%N then members fuel' s5 (pairs ++ [(key, v)])
                      else malformed "Expecting property name enclosed in double quotes"
                  | [] => malformed "Expecting property name enclosed in double quotes"
                  end
                else malformed "Expecting ',' delimiter"
            | [] => malformed "Expecting ',' delimiter"
            end
          else malformed "Expecting ':' delimiter"
      | [] => malformed "Expecting ':' delimiter"
      end
  end
with items (fuel : nat) (s : str) (values : list Json.value)
  : Exc (Json.value * str) :=
  match fuel with
  | O => Raise (mkExn RecursionError (lit "maximum recursion depth exceeded"))
  | S fuel' =>
      '(v, s1) ← scan_once fuel' s;
      match skip_ws s1 with
      | d :: s2 =>
          if (d =? 93)%N then Ok (Json.Array (values ++ [v]), s2)
          else if (d =? 44)%N then items fuel' (skip_ws s2) (values ++ [v])
          else malformed "Expecting ',' delimiter"
      | [] => malformed "Expecting ',' delimiter"
      end
  end.

(** [json.loads(s)] for a [str]. *)
Definition loads (s : str) : Exc Json.value :=
  match s with
  | 65279%N :: _ => malformed "Unexpected UTF-8 BOM (decode using utf-8-sig)"
  | _ =>
      '(v, rest) ← scan_once (2 + length s) (skip_ws s);
      match skip_ws rest with
      | [] => Ok v
      | _ :: _ => malformed "Extra data"
      end
  end.

#[global] Instance lib : PyLib :=
  {| bytes_decode_utf8 := utf8_decode; json_loads := loads |}.

(** The octets of an ASCII text written with an apostrophe wherever the
    document has a quotation mark. *)
Definition doc (s : string) : bytes :=
  map (fun a => if Ascii.eqb a "'"%char then x22 else byte_of_ascii a)
      (list_ascii_of_string s).

End Reference.

(* ===================================================================== *)
(** ** Concrete worlds and windows *)
(* ===================================================================== *)

Module Examples.
Import OllamaWorker.

(** The foreground thread never calls [stop()]. *)
Definition never : nat -> bool := fun _ => false.

(** The foreground thread calls [stop()] just before check number [n]. *)
Definition before_check (n : nat) : nat -> bool := fun k => Nat.eqb k n.

(** An endpoint that answers every request with the given status line and
    body items. *)
Definition endpoint (status : Z) (reason : str) (items : list (Exc bytes))
  : Http.Request -> Exc Http.Response :=
  fun _ => Ok (Http.mkResponse status reason (fun _ => items)).

Definition hello_body : bytes := Reference.doc "{'message':{'content':'hello'}}".

Definition hello_world : World :=
  mkWorld never (endpoint 200 (lit "OK") [Ok hello_body]).

Definition hello_stopped_world : World :=
  mkWorld (before_check 2) (endpoint 200 (lit "OK") [Ok hello_body]).


Definition server_error_world : World :=
  mkWorld never (endpoint 500 (lit "Internal Server Error") [Ok hello_body]).

(** The window after the user has typed [hi] and pressed Enter. *)
Definition busy_window : ChatWindow.t :=
  ChatWindow.handle_send_or_stop (ChatWindow.type_text (lit "hi") ChatWindow.new).

(** The worker that window owns. *)
Definition hi_worker : OllamaWorker.t := start (new (lit "hi")).

(** The busy window after the user has typed [again]. *)
Definition busy_window_again : ChatWindow.t :=
  ChatWindow.type_text (lit "again") busy_window.

(** The busy window once its worker has run in [hello_world], its thread
    has ended and its signal has been delivered: the typing animation
    has just started. *)
Definition typing_window : ChatWindow.t :=
  ChatWindow.deliver
    (emitted (events (H := Reference.lib) hello_world hi_worker))
    (ChatWindow.thread_finished 0 busy_window).

(** An idle window whose input line holds blanks only. *)
Definition blank_window : ChatWindow.t :=
  ChatWindow.type_text [32; 9; 160; 12288; 32]%N ChatWindow.new.

(** An idle window whose input line holds [hi] with blanks around it. *)
Definition padded_window : ChatWindow.t :=
  ChatWindow.type_text ([32; 9]%N ++ lit "hi" ++ [32; 10]%N) ChatWindow.new.

(** An endpoint whose content is the empty string. *)
Definition empty_world : World :=
  mkWorld never
    (endpoint 200 (lit "OK") [Ok (Reference.doc "{'message':{'content':''}}")]).

End Examples.

(* ===================================================================== *)
(** ** The exact shape of an execution, and the steps of a window *)
(* ===================================================================== *)

Module Shape.
Import OllamaWorker.



(** The events of the chunk loop over [items], and how the loop ends:
    it runs out of items, an item raises, or the check after a chunk
    finds the flag set. *)
Inductive loop_shape : list (Exc bytes) -> Flow (list bytes) -> list Event -> Prop :=
| ls_done chunks :
    loop_shape [] (Normal chunks) []
| ls_raise e rest :
    loop_shape (Raise e :: rest) (Raised e) []
| ls_stop chunk rest :
    loop_shape (Ok chunk :: rest) Returned
      [EvChunk chunk; EvReadFlag true; EvClose]
| ls_step chunk rest o t :
    loop_shape rest o t ->
    loop_shape (Ok chunk :: rest) o (EvChunk chunk :: EvReadFlag false :: t).

(** The loop went through every item. *)
Definition loop_whole (items : list (Exc bytes)) (t : list Event) : Prop :=
  exists chunks, loop_shape items (Normal chunks) t.

Section Shapes.
Context `{PyLib}.

(** How the [with] body ends, with which events, and what the exchange
    computes in that case. *)
Inductive body_shape (r : Http.Response) : Flow unit -> list Event -> Prop :=
| bs_headers :
    body_shape r Returned [EvReadFlag true; EvClose]
| bs_status e :
    reply r = Raise e ->
    body_shape r (Raised e) [EvReadFlag false]
| bs_chunk t :
    loop_shape (Http.iter_content r 1024) Returned t ->
    body_shape r Returned (EvReadFlag false :: EvIterContent 1024 :: t)
| bs_read_raises e t :
    loop_shape (Http.iter_content r 1024) (Raised e) t ->
    reply r = Raise e ->
    body_shape r (Raised e) (EvReadFlag false :: EvIterContent 1024 :: t)
| bs_body_raises e t :
    loop_whole (Http.iter_content r 1024) t ->
    reply r = Raise e ->
    body_shape r (Raised e) (EvReadFlag false :: EvIterContent 1024 :: t)
| bs_late_stop t :
    loop_whole (Http.iter_content r 1024) t ->
    body_shape r (Normal tt)
      (EvReadFlag false :: EvIterContent 1024 :: t ++ [EvReadFlag true])
| bs_emit_raises e t :
    loop_whole (Http.iter_content r 1024) t ->
    reply r = Raise e ->
    body_shape r (Raised e)
      (EvReadFlag false :: EvIterContent 1024 :: t ++ [EvReadFlag false])
| bs_result text t :
    loop_whole (Http.iter_content r 1024) t ->
    reply r = Ok text ->
    body_shape r (Normal tt)
      (EvReadFlag false :: EvIterContent 1024 :: t
         ++ [EvReadFlag false; EvEmitResult text]).

(** How [run] ends for prompt [p], with which events. *)
Inductive run_shape (W : World) (p : str) : Flow unit -> list Event -> Prop :=
| rs_entry :
    run_shape W p Returned [EvReadFlag true]
| rs_post_raises e b :
    post W (request p) = Raise e ->
    run_shape W p (Normal tt)
      (EvReadFlag false :: EvPost (request p) :: on_failure e b)
| rs_body r o t :
    post W (request p) = Ok r ->
    body_shape r o t ->
    (forall e, o <> Raised e) ->
    run_shape W p o (EvReadFlag false :: EvPost (request p) :: t ++ [EvClose])
| rs_body_raises r e b t :
    post W (request p) = Ok r ->
    body_shape r (Raised e) t ->
    run_shape W p (Normal tt)
      (EvReadFlag false :: EvPost (request p) :: t ++ [EvClose] ++ on_failure e b).

End Shapes.

(** Every chunk taken from the iterator is followed at once by a read of
    the flag. *)
Fixpoint chunks_checked (tr : list Event) : bool :=
  match tr with
  | [] => true
  | EvChunk _ :: rest =>
      match rest with
      | EvReadFlag _ :: _ => chunks_checked rest
      | _ => false
      end
  | _ :: rest => chunks_checked rest
  end.

End Shape.

Module Steps.
Import ChatWindow.

(** What can happen to a window: the user edits the input line, the
    handler is invoked (button or Enter), a signal of some worker is
    delivered, the typing timer expires while it is active, a worker's
    thread ends. *)
Inductive step : t -> t -> Prop :=
| step_type text self :
    step self (type_text text self)
| step_press self :
    step self (handle_send_or_stop self)
| step_signal ev self :
    OllamaWorker.is_emission ev = true ->
    step self (on_signal ev self)
| step_tick self self' :
    typing_timer self = true ->
    type_next_char self = Ok self' ->
    step self self'
| step_finished r self :
    step self (thread_finished r self).

(** Any number of steps. *)
Inductive steps : t -> t -> Prop :=
| steps_none self : steps self self
| steps_more self self' self'' : steps self self' -> step self' self'' -> steps self self''.

(** The windows the program can be in. *)
Definition reachable (self : t) : Prop := steps new self.

(** What holds of every such window (see [reachable_invariant]). *)
Record invariant (self : t) : Prop := {
  inv_icon : send_btn self = stop_icon <-> ai_thinking self = true;
  inv_bubble :
    forall b, current_bubble_label self = Some b ->
              exists bubble, chat_layout self !! b = Some bubble
                             /\ sender bubble = lit "AI";
  inv_pending : pending_text self <> [] -> is_Some (current_bubble_label self);
  inv_index : typing_index self <= length (pending_text self);
  inv_owned :
    ai_worker self
    = match workers self with
      | [] => None
      | _ :: _ => Some (length (workers self) - 1)
      end
}.

End Steps.

(* ===================================================================== *)
(** * Properties of the worker *)
(* ===================================================================== *)

Section WorkerFacts.
Import OllamaWorker.
Context {L : PyLib}.
Variable W : World.

Lemma stop_sets_flag w : stop_requested (stop w) = true.
Proof. reflexivity. Qed.

Lemma stop_closes_session w : closed (session (stop w)) = true.
Proof. reflexivity. Qed.

Lemma stop_keeps_prompt w : prompt (stop w) = prompt w.
Proof. reflexivity. Qed.

Lemma run_blocks :
  run W = (b ← read_stop_requested W;
           if b : bool then return_ else try_except (attempt W) (handler W)).
Proof. reflexivity. Qed.

(** One check: the worker may have been stopped in the meantime, its
    prompt is the same, and a flag that was set stays set. *)
Lemma read_spec s :
  exists w',
    read_stop_requested W s
    = (Normal (stop_requested w'),
       {| self := w'; reads := S (reads s);
          trace := trace s ++ [EvReadFlag (stop_requested w')] |})
    /\ prompt w' = prompt (self s)
    /\ (stop_requested (self s) = true -> stop_requested w' = true).
Proof.
  exists (if stop_called W (reads s) then stop (self s) else self s).
  split; [reflexivity|]. destruct (stop_called W (reads s)); auto.
Qed.

Lemma for_chunk_events items : forall chunks s o s',
  for_chunk W items chunks s = (o, s') ->
  exists t,
    trace s' = trace s ++ t
    /\ Forall loop_event t
    /\ (o <> Returned -> ~ In (EvReadFlag true) t)
    /\ (exists rest, map Ok (chunks_of t) ++ rest = items).
Proof.
  induction items as [|item items IH]; intros chunks s o s' Hrun.
  - cbn in Hrun. inversion Hrun; subst. exists []. rewrite app_nil_r.
    split; [reflexivity|split; [constructor|split]]; [intros _ []|].
    exists []. reflexivity.
  - destruct item as [chunk|e].
    + cbn in Hrun. unfold mbind, M_bind, log, read_stop_requested in Hrun.
      cbn in Hrun.
      destruct (stop_requested _) eqn:Hflag in Hrun.
      * cbn in Hrun. inversion Hrun; subst; clear Hrun. cbn.
        exists [EvChunk chunk; EvReadFlag true; EvClose].
        rewrite <- !app_assoc. cbn. split; [reflexivity|split; [|split]].
        -- repeat constructor.
        -- intros Hne. congruence.
        -- exists items. reflexivity.
      * apply IH in Hrun. destruct Hrun as (t & Ht & Hev & Hno & rest & Hrest).
        cbn in Ht. exists (EvChunk chunk :: EvReadFlag false :: t).
        rewrite Ht, <- !app_assoc. cbn. split; [reflexivity|split; [|split]].
        -- repeat constructor; auto.
        -- intros Hne [Hin|[Hin|Hin]]; try discriminate. exact (Hno Hne Hin).
        -- exists rest. cbn. rewrite Hrest. reflexivity.
    + cbn in Hrun. inversion Hrun; subst. exists []. rewrite app_nil_r.
      split; [reflexivity|split; [constructor|split]]; [intros _ []|].
      exists (Raise e :: items). reflexivity.
Qed.

Lemma handler_path e s :
  exists b s',
    handler W e s = (Normal tt, s') /\ trace s' = trace s ++ on_failure e b.
Proof.
  unfold handler, mbind, M_bind.
  destruct (read_spec s) as (w' & -> & _).
  exists (stop_requested w'). destruct (stop_requested w'); cbn.
  - eexists; split; reflexivity.
  - eexists; split; [reflexivity|]. cbn. rewrite <- app_assoc. reflexivity.
Qed.

Lemma finish_path data s :
  exists s',
    (finish W data s = (Normal tt, s') /\ trace s' = trace s ++ [EvReadFlag true])
    \/ (exists e, finish W data s = (Raised e, s')
                  /\ trace s' = trace s ++ [EvReadFlag false])
    \/ (exists text, finish W data s = (Normal tt, s')
                     /\ trace s' = trace s ++ [EvReadFlag false; EvEmitResult text]).
Proof.
  unfold finish, mbind, M_bind.
  destruct (read_spec s) as (w' & -> & _).
  destruct (stop_requested w'); cbn.
  - eexists; left; split; reflexivity.
  - destruct (Json.getitem data _) as [message|e]; cbn.
    2:{ eexists; right; left; exists e; split; reflexivity. }
    destruct (Json.getitem message _) as [content|e]; cbn.
    2:{ eexists; right; left; exists e; split; reflexivity. }
    destruct content; cbn;
      try (eexists; right; left; eexists; split; reflexivity).
    eexists; right; right; eexists; split; [reflexivity|].
    cbn. rewrite <- app_assoc. reflexivity.
Qed.

Lemma body_paths r s :
  exists t,
    trace (snd (body W r s)) = trace s ++ t
    /\ body_path r (fst (body W r s)) t.
Proof.
  unfold body, mbind, M_bind.
  destruct (read_spec s) as (w' & -> & _).
  destruct (stop_requested w'); cbn.
  { exists [EvReadFlag true; EvClose]. rewrite <- app_assoc.
    split; [reflexivity|constructor]. }
  destruct (Http.raise_for_status _ r) as [[]|e] eqn:Hstatus; cbn.
  2:{ exists [EvReadFlag false]. split; [reflexivity|]. constructor; exact Hstatus. }
  match goal with |- context [for_chunk W ?i ?c ?st] =>
    destruct (for_chunk W i c st) as [o s1] eqn:Hloop end.
  apply for_chunk_events in Hloop.
  destruct Hloop as (t & Ht & Hev & Hno & Hpre). cbn in Ht.
  assert (Hlt : loop_trace r t) by (split; assumption).
  destruct o as [chunks|e|]; cbn.
  - specialize (Hno ltac:(discriminate)).
    destruct (bytes_decode_utf8 (concat chunks)) as [text|e]; cbn.
    2:{ exists (EvReadFlag false :: EvIterContent 1024 :: t).
        rewrite Ht, <- !app_assoc. split; [reflexivity|].
        apply bp_body_raises; assumption. }
    destruct (json_loads text) as [data|e]; cbn.
    2:{ exists (EvReadFlag false :: EvIterContent 1024 :: t).
        rewrite Ht, <- !app_assoc. split; [reflexivity|].
        apply bp_body_raises; assumption. }
    destruct (finish_path data s1) as (s2 & [[-> Hf]|[(e & -> & Hf)|(text' & -> & Hf)]]);
      cbn; rewrite Hf, Ht, <- !app_assoc; cbn.
    + exists (EvReadFlag false :: EvIterContent 1024 :: t ++ [EvReadFlag true]).
      split; [reflexivity|]. apply bp_late_stop; assumption.
    + exists (EvReadFlag false :: EvIterContent 1024 :: t ++ [EvReadFlag false]).
      split; [reflexivity|]. apply bp_emit_raises; assumption.
    + exists (EvReadFlag false :: EvIterContent 1024 :: t
                ++ [EvReadFlag false; EvEmitResult text']).
      split; [reflexivity|]. apply bp_result; assumption.
  - specialize (Hno ltac:(discriminate)).
    exists (EvReadFlag false :: EvIterContent 1024 :: t).
    rewrite Ht, <- !app_assoc. split; [reflexivity|].
    apply bp_body_raises; assumption.
  - exists (EvReadFlag false :: EvIterContent 1024 :: t).
    rewrite Ht, <- !app_assoc. split; [reflexivity|].
    apply bp_chunk; assumption.
Qed.

Lemma current_prompt s : prompt (current W s) = prompt (self s).
Proof. unfold current. destruct (stop_called W (reads s)); reflexivity. Qed.

(** Every execution of [run] follows one of the paths, and its first
    event is the check at entry. *)
Lemma run_paths_entry w :
  run_path W (prompt w) (ending W w) (events W w)
  /\ exists rest,
      events W w = EvReadFlag (stop_requested (current W (enter w))) :: rest.
Proof.
  unfold ending, events. rewrite run_blocks. unfold mbind, M_bind.
  unfold read_stop_requested at 1 2 3.
  pose proof (current_prompt (enter w)) as Hp. cbn [self enter] in Hp.
  destruct (stop_requested (current W (enter w))); cbn.
  { split; [constructor|eexists; reflexivity]. }
  unfold try_except, attempt, session_post, get_self, log, mbind, M_bind. cbn.
  rewrite Hp.
  destruct (post W (request (prompt w))) as [r|e] eqn:Hpost; cbn.
  2:{ match goal with |- context [handler W e ?st] =>
        destruct (handler_path e st) as (b & s' & -> & Hh) end.
      cbn in *. rewrite Hh.
      split; [apply rp_post_raises; exact Hpost|eexists; reflexivity]. }
  unfold with_response.
  match goal with |- context [body W r ?st] =>
    destruct (body_paths r st) as (t & Ht & Hb);
    destruct (body W r st) as [o s1] end.
  cbn in Ht, Hb.
  destruct o as [[]|e|]; cbn.
  - rewrite Ht. cbn. split; [|eexists; reflexivity].
    apply (rp_body W _ r); [exact Hpost|exact Hb|discriminate].
  - match goal with |- context [handler W e ?st] =>
      destruct (handler_path e st) as (b & s' & -> & Hh) end.
    cbn in *. rewrite Hh, Ht. cbn. rewrite <- !app_assoc.
    split; [|eexists; reflexivity].
    apply (rp_body_raises W _ r); assumption.
  - rewrite Ht. cbn. split; [|eexists; reflexivity].
    apply (rp_body W _ r); [exact Hpost|exact Hb|discriminate].
Qed.

Lemma run_paths w : run_path W (prompt w) (ending W w) (events W w).
Proof. apply run_paths_entry. Qed.

Lemma emitted_app t1 t2 : emitted (t1 ++ t2) = emitted t1 ++ emitted t2.
Proof. apply List.filter_app. Qed.

Lemma loop_events_silent t : Forall loop_event t -> List.filter is_emission t = [].
Proof.
  induction 1 as [|ev t Hev _ IH]; [reflexivity|].
  destruct ev; cbn in *; try contradiction; exact IH.
Qed.

Lemma loop_events_no_post t : Forall loop_event t -> List.filter is_post t = [].
Proof.
  induction 1 as [|ev t Hev _ IH]; [reflexivity|].
  destruct ev; cbn in *; try contradiction; exact IH.
Qed.

Lemma set_flag_read_first w :
  stop_requested w = true -> events W w = [EvReadFlag true].
Proof.
  intros Hw. unfold events. rewrite run_blocks. unfold mbind, M_bind.
  destruct (read_spec (enter w)) as (w0 & -> & _ & Hset).
  rewrite (Hset Hw). reflexivity.
Qed.

Lemma path_never_raises p o tr e : run_path W p o tr -> o <> Raised e.
Proof.
  intros Hp Heq. subst o. inversion Hp as [ | | r o t Hpost Hb Hne | ]; subst.
  eapply Hne. reflexivity.
Qed.

Ltac silent :=
  unfold emitted; cbn;
  rewrite ?List.filter_app; cbn;
  repeat match goal with
         | H : loop_trace _ ?t |- _ =>
             rewrite (loop_events_silent t (proj1 H)) by idtac
         end;
  try reflexivity.

Ltac unobserved H :=
  exfalso; cbn in H;
  repeat (rewrite in_app_iff in H; cbn in H);
  intuition (try discriminate; try congruence).

(** On every path, a check that finds the flag set is followed by no
    signal, and a signal is preceded by no such check. *)
Lemma path_silent p o tr :
  run_path W p o tr -> In (EvReadFlag true) tr -> emitted tr = [].
Proof.
  intros Hp Hobs.
  inversion Hp as [ | e b Hpost | r o' t Hpost Hb Hne | r e b t Hpost Hb ]; subst.
  - reflexivity.
  - destruct b; [reflexivity|]. unobserved Hobs.
  - inversion Hb; subst; try (now silent); try (exfalso; eapply Hne; reflexivity).
    unobserved Hobs.
  - destruct b.
    + inversion Hb; subst; now silent.
    + inversion Hb; subst; unobserved Hobs.
Qed.

(** C1. If the cancellation flag is set before [run] starts, or [run]
    observes it set at any of its checks (before the call, after the
    headers, after a chunk, before emitting the result, before emitting
    the error), then [run] emits neither a result nor an error, and it
    ends without raising. *)
Theorem cancelled_run_is_silent w :
  stop_requested w = true \/ In (EvReadFlag true) (events W w) ->
  emitted (events W w) = [] /\ forall e, ending W w <> Raised e.
Proof.
  intros Hset. split; [|intros e; exact (path_never_raises _ _ _ e (run_paths w))].
  destruct Hset as [Hset|Hobs].
  - rewrite (set_flag_read_first w Hset). reflexivity.
  - exact (path_silent _ _ _ (run_paths w) Hobs).
Qed.

(** *** The request and the way the body is read *)

Lemma chunks_of_app t1 t2 : chunks_of (t1 ++ t2) = chunks_of t1 ++ chunks_of t2.
Proof.
  induction t1 as [|ev t1 IH]; [reflexivity|].
  destruct ev; cbn; rewrite ?IH; reflexivity.
Qed.

Lemma loop_events_no_iter t n : Forall loop_event t -> ~ In (EvIterContent n) t.
Proof.
  intros Hall Hin. rewrite Forall_forall in Hall. exact (Hall _ Hin).
Qed.

Lemma body_path_chunks r o t :
  body_path r o t ->
  List.filter is_post t = []
  /\ (forall n, In (EvIterContent n) t -> n = 1024%Z)
  /\ exists rest, map Ok (chunks_of t) ++ rest = Http.iter_content r 1024.
Proof.
  assert (Hcut : forall t0 tail, loop_trace r t0 ->
                 Forall loop_event tail -> chunks_of tail = [] ->
                 List.filter is_post (EvReadFlag false :: EvIterContent 1024 :: t0 ++ tail) = []
                 /\ (forall n, In (EvIterContent n)
                                 (EvReadFlag false :: EvIterContent 1024 :: t0 ++ tail) ->
                               n = 1024%Z)
                 /\ exists rest,
                     map Ok (chunks_of (EvReadFlag false :: EvIterContent 1024 :: t0 ++ tail))
                     ++ rest = Http.iter_content r 1024).
  { intros t0 tail [Hall Hpre] Htail Hnil. split; [|split].
    - cbn. rewrite List.filter_app, !loop_events_no_post by assumption. reflexivity.
    - intros n [Hin|[Hin|Hin]]; [discriminate|congruence|].
      apply in_app_iff in Hin. destruct Hin as [Hin|Hin]; exfalso.
      + exact (loop_events_no_iter _ _ Hall Hin).
      + exact (loop_events_no_iter _ _ Htail Hin).
    - cbn. rewrite chunks_of_app, Hnil, app_nil_r. exact Hpre. }
  destruct 1 as [ | e Hst | t Hl | e t Hl Hno | t Hl | e t Hl Hno | text t Hl Hno ].
  - split; [reflexivity|split]; [intros n [|[|[]]]; discriminate|].
    exists (Http.iter_content r 1024). reflexivity.
  - split; [reflexivity|split]; [intros n [|[]]; discriminate|].
    exists (Http.iter_content r 1024). reflexivity.
  - rewrite <- (app_nil_r t). apply Hcut; [assumption|constructor|reflexivity].
  - rewrite <- (app_nil_r t). apply Hcut; [assumption|constructor|reflexivity].
  - apply Hcut; [assumption|repeat constructor|reflexivity].
  - apply Hcut; [assumption|repeat constructor|reflexivity].
  - destruct Hl as [Hall Hpre]. split; [|split].
    + cbn. rewrite List.filter_app, loop_events_no_post by assumption. reflexivity.
    + intros n [Hin|[Hin|Hin]]; [discriminate|congruence|].
      apply in_app_iff in Hin. destruct Hin as [Hin|[Hin|[Hin|[]]]]; try discriminate.
      exfalso. exact (loop_events_no_iter _ _ Hall Hin).
    + cbn. rewrite chunks_of_app. cbn. rewrite app_nil_r. exact Hpre.
Qed.

Lemma path_request p o tr :
  run_path W p o tr ->
  (tr = [EvReadFlag true] \/ List.filter is_post tr = [EvPost (request p)])
  /\ (forall n, In (EvIterContent n) tr -> n = 1024%Z)
  /\ (forall r, post W (request p) = Ok r ->
       exists rest, map Ok (chunks_of tr) ++ rest = Http.iter_content r 1024).
Proof.
  destruct 1 as [ | e b Hpost | r o t Hpost Hb Hne | r e b t Hpost Hb ].
  - split; [left; reflexivity|split].
    + intros n [|[]]; discriminate.
    + intros r _. exists (Http.iter_content r 1024). reflexivity.
  - split; [|split].
    + right. destruct b; reflexivity.
    + intros n Hin. destruct b; cbn in Hin; intuition discriminate.
    + intros r Hr. congruence.
  - destruct (body_path_chunks r o t Hb) as (Hp & Hi & Hc). split; [|split].
    + right. cbn. rewrite List.filter_app, Hp. reflexivity.
    + intros n [|[|Hin]]; try discriminate.
      apply in_app_iff in Hin. destruct Hin as [Hin|[|[]]]; try discriminate.
      exact (Hi n Hin).
    + intros r' Hr. assert (r' = r) by congruence. subst r'.
      cbn. rewrite chunks_of_app. cbn. rewrite app_nil_r. exact Hc.
  - destruct (body_path_chunks r _ t Hb) as (Hp & Hi & Hc). split; [|split].
    + right. cbn. rewrite !List.filter_app, Hp. destruct b; reflexivity.
    + intros n [|[|Hin]]; try discriminate.
      apply in_app_iff in Hin. destruct Hin as [Hin|[|Hin]]; try discriminate.
      * exact (Hi n Hin).
      * destruct b; cbn in Hin; intuition discriminate.
    + intros r' Hr. assert (r' = r) by congruence. subst r'.
      cbn. rewrite !chunks_of_app. destruct b; cbn; rewrite app_nil_r; exact Hc.
Qed.

(** A worker whose flag is clear at entry issues exactly one POST, the
    request built from its prompt. *)
Lemma first_post w :
  stop_requested w = false ->
  stop_called W 0 = false ->
  List.filter is_post (events W w) = [EvPost (request (prompt w))].
Proof.
  intros Hclear Hsched.
  destruct (run_paths_entry w) as (Hp & rest & Hfirst).
  destruct (path_request _ _ _ Hp) as ([Hentry|Hposts] & _); [|exact Hposts].
  exfalso. rewrite Hentry in Hfirst. inversion Hfirst as [Hflag].
  unfold current, enter in Hflag. cbn in Hflag. rewrite Hsched in Hflag.
  congruence.
Qed.


(** *** Executions that are not cancelled *)

Section NotCancelled.
Hypothesis Hquiet : never_stopped W.

Lemma read_quiet s :
  stop_requested (self s) = false ->
  read_stop_requested W s
  = (Normal false,
     {| self := self s; reads := S (reads s);
        trace := trace s ++ [EvReadFlag false] |}).
Proof.
  intros Hclear. unfold read_stop_requested, current.
  rewrite (Hquiet (reads s)), Hclear. reflexivity.
Qed.

Lemma collect_oks chunks : collect (map Ok chunks) = Ok chunks.
Proof.
  induction chunks as [|c chunks IH]; [reflexivity|].
  cbn. rewrite IH. reflexivity.
Qed.


Lemma for_chunk_quiet items : forall chunks s,
  stop_requested (self s) = false ->
  exists s' chunks',
    for_chunk W items chunks s
    = (match collect items with
       | Ok _ => Normal chunks'
       | Raise e => Raised e
       end, s')
    /\ self s' = self s
    /\ emitted (trace s') = emitted (trace s)
    /\ forall cs, collect items = Ok cs ->
                  concat chunks' = concat chunks ++ concat cs.
Proof.
  induction items as [|[chunk|e] items IH]; intros chunks s Hclear.
  - exists s, chunks. repeat split. intros cs [= <-]. cbn.
    rewrite app_nil_r. reflexivity.
  - cbn [for_chunk]. unfold mbind at 1 2, M_bind, log.
    rewrite read_quiet by exact Hclear. cbn [self reads trace].
    match goal with |- context [for_chunk W items ?c ?st] =>
      destruct (IH c st Hclear) as (s' & chunks' & Hrun & Hself & Hem & Hcat) end.
    exists s', chunks'. rewrite Hrun. cbn [collect]. unfold mbind, Exc_bind.
    split; [destruct (collect items); reflexivity|].
    split; [exact Hself|split].
    + rewrite Hem. cbn [trace]. rewrite !emitted_app. cbn.
      rewrite !app_nil_r. reflexivity.
    + intros cs Hcs. destruct (collect items) as [cs'|e]; [|discriminate].
      injection Hcs as <-. rewrite (Hcat cs' eq_refl).
      destruct chunk; cbn; [reflexivity|].
      rewrite concat_app. cbn. rewrite app_nil_r, <- app_assoc. reflexivity.
  - exists s, chunks. repeat split. intros cs [=].
Qed.

Lemma handler_quiet e s :
  stop_requested (self s) = false ->
  exists s',
    handler W e s = (Normal tt, s')
    /\ emitted (trace s') = emitted (trace s) ++ [EvEmitError (exn_str e)].
Proof.
  intros Hclear. unfold handler, mbind, M_bind.
  rewrite read_quiet by exact Hclear. cbn.
  eexists; split; [reflexivity|]. cbn. rewrite !emitted_app. cbn.
  rewrite app_nil_r. reflexivity.
Qed.

Lemma finish_quiet data s :
  stop_requested (self s) = false ->
  exists s',
    finish W data s
    = (match extract data with Ok _ => Normal tt | Raise e => Raised e end, s')
    /\ self s' = self s
    /\ emitted (trace s')
       = emitted (trace s)
         ++ match extract data with Ok text => [EvEmitResult text] | Raise _ => [] end.
Proof.
  intros Hclear. unfold finish, extract, mbind, M_bind, Exc_bind.
  rewrite read_quiet by exact Hclear. cbn.
  destruct (Json.getitem data _) as [message|e]; cbn.
  2:{ eexists; split; [reflexivity|split; [reflexivity|]].
      cbn. rewrite emitted_app. reflexivity. }
  destruct (Json.getitem message _) as [content|e]; cbn.
  2:{ eexists; split; [reflexivity|split; [reflexivity|]].
      cbn. rewrite emitted_app. reflexivity. }
  destruct content; cbn;
    (eexists; split; [reflexivity|split; [reflexivity|]]);
    cbn; rewrite ?emitted_app; cbn; rewrite <- ?app_assoc; reflexivity.
Qed.

Ltac exc_step :=
  repeat match goal with
         | |- context [@mbind Exc Exc_bind ?A ?B ?f (Ok ?x)] =>
             change (@mbind Exc Exc_bind A B f (Ok x)) with (f x); cbn beta
         | |- context [@mbind Exc Exc_bind ?A ?B ?f (Raise ?e)] =>
             change (@mbind Exc Exc_bind A B f (Raise e)) with (@Raise B e)
         end.

Lemma body_quiet r s :
  stop_requested (self s) = false ->
  exists s',
    body W r s
    = (match reply r with Ok _ => Normal tt | Raise e => Raised e end, s')
    /\ self s' = self s
    /\ emitted (trace s')
       = emitted (trace s)
         ++ match reply r with Ok text => [EvEmitResult text] | Raise _ => [] end.
Proof.
  intros Hclear. unfold body, reply.
  unfold mbind at 1 2 3, M_bind, log.
  rewrite read_quiet by exact Hclear. cbn [self reads trace].
  destruct (Http.raise_for_status OLLAMA_URL r) as [[]|e]; cbn [lift]; exc_step.
  2:{ eexists; split; [reflexivity|split; [reflexivity|]].
      cbn. rewrite emitted_app. reflexivity. }
  unfold mret, M_ret. cbn beta iota.
  unfold mbind at 1 2, M_bind. cbn beta iota.
  match goal with |- context [for_chunk W ?i ?c ?st] =>
    destruct (for_chunk_quiet i c st Hclear)
      as (s1 & chunks & -> & Hself1 & Hem1 & Hcat) end.
  cbn [self] in Hself1.
  cbn [trace] in Hem1. rewrite emitted_app in Hem1. cbn in Hem1.
  rewrite emitted_app in Hem1. cbn in Hem1. rewrite !app_nil_r in Hem1.
  destruct (collect (Http.iter_content r 1024)) as [cs|e]; exc_step.
  2:{ exists s1. split; [reflexivity|split; [exact Hself1|]].
      rewrite Hem1, app_nil_r. reflexivity. }
  rewrite (Hcat cs eq_refl). cbn [concat app].
  unfold mbind at 1, M_bind.
  destruct (bytes_decode_utf8 (concat cs)) as [text|e];
    cbn [lift mret M_ret raise]; exc_step.
  2:{ exists s1. split; [reflexivity|split; [exact Hself1|]].
      rewrite Hem1, app_nil_r. reflexivity. }
  unfold mbind at 1, M_bind.
  destruct (json_loads text) as [data|e]; cbn [lift mret M_ret raise]; exc_step.
  2:{ exists s1. split; [reflexivity|split; [exact Hself1|]].
      rewrite Hem1, app_nil_r. reflexivity. }
  assert (Hclear1 : stop_requested (self s1) = false) by (rewrite Hself1; exact Hclear).
  destruct (finish_quiet data s1 Hclear1) as (s2 & -> & Hself2 & Hem2).
  exists s2. split; [reflexivity|split; [congruence|]].
  rewrite Hem2, Hem1. reflexivity.
Qed.

(** A run that is not cancelled ends normally and emits exactly one
    signal, the one that reports the answer of the exchange. *)
Lemma run_quiet w :
  stop_requested w = false ->
  ending W w = Normal tt
  /\ emitted (events W w) = [signal (answer W (prompt w))].
Proof.
  intros Hclear. unfold ending, events. rewrite run_blocks.
  unfold mbind, M_bind.
  rewrite read_quiet by exact Hclear. cbn [self reads trace enter].
  unfold try_except, attempt, session_post, get_self, log, mbind, M_bind, answer.
  cbn [self reads trace].
  destruct (post W (request (prompt w))) as [r|e];
    cbn [lift mret M_ret raise]; exc_step.
  2:{ match goal with |- context [handler W e ?st] =>
        destruct (handler_quiet e st Hclear) as (s' & -> & Hem) end.
      cbn. rewrite Hem. split; reflexivity. }
  unfold with_response.
  match goal with |- context [body W r ?st] =>
    destruct (body_quiet r st Hclear) as (s1 & -> & Hself & Hem) end.
  cbn [trace] in Hem. rewrite !emitted_app in Hem. cbn in Hem.
  destruct (reply r) as [text|e]; cbn.
  - rewrite emitted_app, Hem. split; reflexivity.
  - match goal with |- context [handler W e ?st] =>
      destruct (handler_quiet e st) as (s' & -> & Hem') end.
    { cbn. rewrite Hself. exact Hclear. }
    cbn. rewrite Hem'. cbn [trace]. rewrite emitted_app, Hem. split; reflexivity.
Qed.



Lemma extract_envelope c :
  extract (Json.Object [(lit "message", Json.Object [(lit "content", Json.String c)])])
  = Ok c.
Proof. reflexivity. Qed.

(** C5 (as amended). When the endpoint answers with a status that
    [raise_for_status] accepts and a body that is the JSON object
    [{message: {content: c}}], [c] a string, a request that is not
    cancelled emits exactly one signal, [result_ready] with payload
    [c], and ends normally. *)
Theorem envelope_yields_its_content w r chunks text c :
  stop_requested w = false ->
  post W (request (prompt w)) = Ok r ->
  Http.raise_for_status OLLAMA_URL r = Ok tt ->
  Http.iter_content r 1024 = map Ok chunks ->
  bytes_decode_utf8 (concat chunks) = Ok text ->
  json_loads text
  = Ok (Json.Object [(lit "message", Json.Object [(lit "content", Json.String c)])]) ->
  emitted (events W w) = [EvEmitResult c] /\ ending W w = Normal tt.
Proof.
  intros Hclear Hpost Hstatus Hbody Hdecode Hloads.
  destruct (run_quiet w Hclear) as [Hend Hem]. split; [|exact Hend].
  rewrite Hem. unfold answer, reply. rewrite Hpost. exc_step.
  rewrite Hstatus. exc_step. rewrite Hbody, collect_oks. exc_step.
  rewrite Hdecode. exc_step. rewrite Hloads. exc_step.
  rewrite extract_envelope. reflexivity.
Qed.


End NotCancelled.

(** [raise_for_status] raises exactly for the statuses 400 to 599. *)
Lemma raise_for_status_spec u r :
  (exists e, Http.raise_for_status u r = Raise e /\ exn_class e = HTTPError)
  <-> (400 <= Http.status_code r < 600)%Z.
Proof.
  unfold Http.raise_for_status.
  destruct (400 <=? Http.status_code r)%Z eqn:H4;
    destruct (Http.status_code r <? 500)%Z eqn:H5;
    destruct (500 <=? Http.status_code r)%Z eqn:H6;
    destruct (Http.status_code r <? 600)%Z eqn:H7; cbn;
    split; try (intros (e & [=] & _)); try (intros; eexists; split; reflexivity);
    lia.
Qed.


End WorkerFacts.

(* ===================================================================== *)
(** * Properties of [strip] *)
(* ===================================================================== *)

Section StripFacts.

Lemma lstrip_blank s : forallb isspace s = true -> lstrip s = [].
Proof.
  induction s as [|c s IH]; [reflexivity|]. cbn.
  intros H. apply andb_prop in H. destruct H as [Hc Hs].
  rewrite Hc. exact (IH Hs).
Qed.

Lemma strip_blank s : forallb isspace s = true -> strip s = [].
Proof. intros H. unfold strip. rewrite (lstrip_blank s H). reflexivity. Qed.

Lemma lstrip_suffix s :
  exists pre, s = pre ++ lstrip s /\ forallb isspace pre = true.
Proof.
  induction s as [|c s (pre & Hs & Hpre)]; [exists []; split; reflexivity|].
  cbn. destruct (isspace c) eqn:Hc.
  - exists (c :: pre). cbn. rewrite Hc, Hpre. split; [congruence|reflexivity].
  - exists []. split; reflexivity.
Qed.

Lemma lstrip_head s c rest : lstrip s = c :: rest -> isspace c = false.
Proof.
  induction s as [|d s IH]; [discriminate|]. cbn.
  destruct (isspace d) eqn:Hd; [exact IH|]. intros [= <- _]. exact Hd.
Qed.

Lemma lstrip_nonblank s :
  existsb nonspace s = true -> exists c rest, lstrip s = c :: rest.
Proof.
  induction s as [|d s IH]; [discriminate|]. cbn. unfold nonspace at 1.
  destruct (isspace d); cbn; [exact IH|]. intros _. eauto.
Qed.

Lemma lstrip_snoc s c :
  isspace c = false -> exists init, lstrip (s ++ [c]) = init ++ [c].
Proof.
  intros Hc. induction s as [|d s (init & IH)]; cbn.
  - rewrite Hc. exists []. reflexivity.
  - destruct (isspace d).
    + exists init. exact IH.
    + exists (d :: s). reflexivity.
Qed.

Lemma forallb_rev (f : char -> bool) s : forallb f (rev s) = forallb f s.
Proof.
  induction s as [|c s IH]; [reflexivity|]. cbn.
  rewrite forallb_app, IH. cbn. rewrite andb_true_r. apply andb_comm.
Qed.

Lemma rstrip_prefix s :
  exists post, s = rstrip s ++ post /\ forallb isspace post = true.
Proof.
  unfold rstrip. destruct (lstrip_suffix (rev s)) as (pre & Hs & Hpre).
  exists (rev pre). split; [|rewrite forallb_rev; exact Hpre].
  rewrite <- rev_app_distr, <- Hs, rev_involutive. reflexivity.
Qed.

Lemma rstrip_last s c init : rstrip s = init ++ [c] -> isspace c = false.
Proof.
  unfold rstrip. intros H. apply (f_equal (@rev char)) in H.
  rewrite rev_involutive, rev_app_distr in H. cbn in H.
  exact (lstrip_head _ _ _ H).
Qed.

Lemma rstrip_head c rest :
  isspace c = false -> exists rest', rstrip (c :: rest) = c :: rest'.
Proof.
  intros Hc. unfold rstrip. cbn [rev].
  destruct (lstrip_snoc (rev rest) c Hc) as (init & ->).
  exists (rev init). rewrite rev_app_distr. reflexivity.
Qed.

(** What [strip] returns for a text with a character that is not
    whitespace: the text without its leading and trailing whitespace. *)
Lemma strip_spec s :
  existsb nonspace s = true ->
  exists pre post,
    s = pre ++ strip s ++ post
    /\ forallb isspace pre = true
    /\ forallb isspace post = true
    /\ (exists c rest, strip s = c :: rest /\ isspace c = false)
    /\ (exists init c, strip s = init ++ [c] /\ isspace c = false).
Proof.
  intros Hs. unfold strip.
  destruct (lstrip_suffix s) as (pre & Hpre & Hblank).
  destruct (rstrip_prefix (lstrip s)) as (post & Hpost & Hblank').
  exists pre, post. split; [|split; [exact Hblank|split; [exact Hblank'|]]].
  { rewrite <- Hpost. exact Hpre. }
  destruct (lstrip_nonblank s Hs) as (c & rest & Hl).
  pose proof (lstrip_head _ _ _ Hl) as Hc.
  rewrite Hl. destruct (rstrip_head c rest Hc) as (rest' & Hr).
  split; [exists c, rest'; split; assumption|].
  rewrite Hr.
  destruct (exists_last (l := c :: rest')) as (init & d & Hlast); [discriminate|].
  exists init, d. split; [exact Hlast|].
  apply (rstrip_last (c :: rest) d init). rewrite Hr. exact Hlast.
Qed.

End StripFacts.

(* ===================================================================== *)
(** * Properties of the window *)
(* ===================================================================== *)

Section WindowFacts.
Import ChatWindow.
Context {L : PyLib}.

(** The stop branch of the handler, field by field. *)
Lemma stop_branch self :
  ai_thinking self = true ->
  handle_send_or_stop self
  = mk (complete_bubble self) (input_line self) send_icon false
       (pending_text self) (typing_index self) (current_bubble_label self)
       (stop_owned self) (ai_worker self) false.
Proof.
  intros Hbusy. unfold handle_send_or_stop, stop_owned, complete_bubble.
  rewrite Hbusy.
  destruct (ai_worker self) as [r|] eqn:Hr;
    [destruct (workers self !! r) as [w|] eqn:Hw;
     [destruct (OllamaWorker.isRunning w) eqn:Hrun|]|];
    cbn; destruct (current_bubble_label self) eqn:Hb;
    unfold setText, set_send_btn, set_ai_thinking, set_typing_timer,
      set_workers, set_chat_layout; cbn;
    rewrite ?Hr, ?Hb; reflexivity.
Qed.

(** The send branch of the handler, field by field. *)
Lemma send_branch self c rest :
  ai_thinking self = false ->
  strip (input_line self) = c :: rest ->
  handle_send_or_stop self
  = mk (chat_layout self ++ [mkBubble (c :: rest) (lit "User")]) [] stop_icon
       (typing_timer self) (pending_text self) (typing_index self)
       (current_bubble_label self)
       (workers self ++ [OllamaWorker.start (OllamaWorker.new (c :: rest))])
       (Some (length (workers self))) true.
Proof.
  intros Hidle Hmsg. unfold handle_send_or_stop. rewrite Hidle, Hmsg. cbn.
  unfold set_send_btn, set_ai_thinking, set_workers, set_ai_worker,
    set_input_line, set_chat_layout. cbn. f_equal.
  rewrite alter_app_r_alt by lia. rewrite Nat.sub_diag. reflexivity.
Qed.

Lemma alter_fixed {A} (f : A -> A) (l : list A) i :
  (forall x, l !! i = Some x -> f x = x) -> alter f i l = l.
Proof.
  intros Hfix. rewrite <- (list_alter_id id l i) at 2 by reflexivity.
  apply list_alter_ext; [exact Hfix|reflexivity].
Qed.

(** C7. While the window is idle, a submit whose text is empty or all
    whitespace changes nothing: the window stays idle, no worker is
    created, no bubble is added. *)
Theorem blank_submit_is_ignored self :
  ai_thinking self = false ->
  forallb isspace (input_line self) = true ->
  handle_send_or_stop self = self.
Proof.
  intros Hidle Hblank. unfold handle_send_or_stop.
  rewrite Hidle, (strip_blank _ Hblank). reflexivity.
Qed.

(** C3, what the code does on a cancel while a request is in flight:
    the handler calls [stop()] on the owned worker, which sets the
    cancellation flag and calls [close()] on the worker's session, and
    the window is idle when the handler returns, while the worker's
    thread is still running.  That is all [stop()] does: the worker it
    leaves is the one it found with the flag set and the session marked
    closed.  Closing the session releases its idle pooled connections;
    the response of the exchange in flight, and the connection it holds,
    are not reachable from the worker object, so the claim's forced
    closing of the transport is what the code does not do. *)
Theorem cancel_stops_and_idles self r w :
  ai_thinking self = true ->
  ai_worker self = Some r ->
  workers self !! r = Some w ->
  OllamaWorker.isRunning w = true ->
  exists w',
    workers (handle_send_or_stop self) !! r = Some w'
    /\ OllamaWorker.stop_requested w' = true
    /\ OllamaWorker.closed (OllamaWorker.session w') = true
    /\ OllamaWorker.isRunning w' = true
    /\ OllamaWorker.prompt w' = OllamaWorker.prompt w
    /\ ai_thinking (handle_send_or_stop self) = false
    /\ send_btn (handle_send_or_stop self) = send_icon
    /\ w' = OllamaWorker.mk (OllamaWorker.prompt w) true
               (OllamaWorker.mkSession true) true.
Proof.
  intros Hbusy Hr Hw Hrun. rewrite (stop_branch self Hbusy). cbn.
  unfold stop_owned. rewrite Hr, Hw, Hrun.
  exists (OllamaWorker.stop w). split.
  - apply list_lookup_insert_eq. eapply lookup_lt_Some. exact Hw.
  - cbn. rewrite Hrun. repeat split.
Qed.

(** C2 (as amended). While the window is busy the handler never takes
    the send branch: no worker is created, no prompt changes, no bubble
    is added and the input line is left as it is.  It takes the stop
    branch instead: the owned worker is stopped if its thread is running
    (and no other worker is touched), the typing timer is stopped, and
    the window becomes idle. *)
Theorem submit_while_busy_stops_instead self :
  ai_thinking self = true ->
  length (workers (handle_send_or_stop self)) = length (workers self)
  /\ map OllamaWorker.prompt (workers (handle_send_or_stop self))
     = map OllamaWorker.prompt (workers self)
  /\ ai_worker (handle_send_or_stop self) = ai_worker self
  /\ input_line (handle_send_or_stop self) = input_line self
  /\ length (chat_layout (handle_send_or_stop self)) = length (chat_layout self)
  /\ workers (handle_send_or_stop self) = stop_owned self
  /\ ai_thinking (handle_send_or_stop self) = false
  /\ send_btn (handle_send_or_stop self) = send_icon
  /\ typing_timer (handle_send_or_stop self) = false
  /\ (forall r w, ai_worker self = Some r -> workers self !! r = Some w ->
       workers (handle_send_or_stop self) !! r
       = Some (if OllamaWorker.isRunning w then OllamaWorker.stop w else w))
  /\ (forall j, ai_worker self <> Some j ->
       workers (handle_send_or_stop self) !! j = workers self !! j).
Proof.
  intros Hbusy. rewrite (stop_branch self Hbusy). cbn.
  assert (Howned : forall r w, ai_worker self = Some r -> workers self !! r = Some w ->
            stop_owned self !! r
            = Some (if OllamaWorker.isRunning w then OllamaWorker.stop w else w)).
  { intros r w Hr Hw. unfold stop_owned. rewrite Hr, Hw.
    destruct (OllamaWorker.isRunning w); [|exact Hw].
    apply list_lookup_insert_eq. eapply lookup_lt_Some. exact Hw. }
  assert (Hothers : forall j, ai_worker self <> Some j ->
            stop_owned self !! j = workers self !! j).
  { intros j Hj. unfold stop_owned.
    destruct (ai_worker self) as [r|]; [|reflexivity].
    destruct (workers self !! r) as [w|]; [|reflexivity].
    destruct (OllamaWorker.isRunning w); [|reflexivity].
    apply list_lookup_insert_ne. congruence. }
  assert (Hprompts : map OllamaWorker.prompt (stop_owned self)
                     = map OllamaWorker.prompt (workers self)).
  { unfold stop_owned.
    destruct (ai_worker self) as [r|]; [|reflexivity].
    destruct (workers self !! r) as [w|] eqn:Hw; [|reflexivity].
    destruct (OllamaWorker.isRunning w); [|reflexivity].
    rewrite list_fmap_insert. apply list_insert_id.
    rewrite list_lookup_fmap, Hw. reflexivity. }
  split; [|split; [exact Hprompts|]].
  - rewrite <- (length_map OllamaWorker.prompt), Hprompts. apply length_map.
  - split; [reflexivity|]. split; [reflexivity|]. split.
    + unfold complete_bubble. destruct (current_bubble_label self); [|reflexivity].
      apply length_alter.
    + split; [reflexivity|]. split; [reflexivity|]. split; [reflexivity|].
      split; [reflexivity|]. split; [exact Howned|exact Hothers].
Qed.

(** C6 (as amended). Cancel after the result has been delivered and the
    worker's thread has ended, while the window is still busy typing the
    text out: the worker is left alone and the delivered text is kept;
    the handler stops the timer, makes the current bubble show the whole
    text, touches no other bubble, and the window becomes idle. *)
Theorem cancel_while_typing_completes_bubble self b :
  ai_thinking self = true ->
  current_bubble_label self = Some b ->
  (forall r w, ai_worker self = Some r -> workers self !! r = Some w ->
               OllamaWorker.isRunning w = false) ->
  workers (handle_send_or_stop self) = workers self
  /\ pending_text (handle_send_or_stop self) = pending_text self
  /\ length (chat_layout (handle_send_or_stop self)) = length (chat_layout self)
  /\ (forall bubble, chat_layout self !! b = Some bubble ->
       chat_layout (handle_send_or_stop self) !! b
       = Some (mkBubble (pending_text self) (sender bubble)))
  /\ (forall j, j <> b ->
       chat_layout (handle_send_or_stop self) !! j = chat_layout self !! j)
  /\ typing_timer (handle_send_or_stop self) = false
  /\ ai_thinking (handle_send_or_stop self) = false
  /\ send_btn (handle_send_or_stop self) = send_icon.
Proof.
  intros Hbusy Hb Hdone. rewrite (stop_branch self Hbusy). cbn.
  unfold complete_bubble. rewrite Hb. split; [|repeat split].
  - unfold stop_owned. destruct (ai_worker self) as [r|] eqn:Hr; [|reflexivity].
    destruct (workers self !! r) as [w|] eqn:Hw; [|reflexivity].
    rewrite (Hdone r w eq_refl Hw). reflexivity.
  - apply length_alter.
  - intros bubble Hbubble. rewrite list_lookup_alter_eq, Hbubble. reflexivity.
  - intros j Hj. apply list_lookup_alter_ne. congruence.
Qed.

(** C10. While the window is idle, a submit whose text [s] has a
    character that is not whitespace shows and sends [s.strip()]: [s]
    without its leading and trailing whitespace, hence not [s] itself
    when [s] starts or ends with whitespace.  The user's bubble shows it,
    the new worker has it as prompt, and it is the content of the
    request that worker posts. *)
Theorem submit_sends_stripped_text self :
  ai_thinking self = false ->
  existsb nonspace (input_line self) = true ->
  (exists pre post,
      input_line self = pre ++ strip (input_line self) ++ post
      /\ forallb isspace pre = true /\ forallb isspace post = true)
  /\ (exists c rest, strip (input_line self) = c :: rest /\ isspace c = false)
  /\ (exists init c, strip (input_line self) = init ++ [c] /\ isspace c = false)
  /\ chat_layout (handle_send_or_stop self)
     = chat_layout self ++ [mkBubble (strip (input_line self)) (lit "User")]
  /\ ai_worker (handle_send_or_stop self) = Some (length (workers self))
  /\ exists w,
      workers (handle_send_or_stop self) !! length (workers self) = Some w
      /\ OllamaWorker.prompt w = strip (input_line self)
      /\ OllamaWorker.isRunning w = true
      /\ forall W, OllamaWorker.stop_called W 0 = false ->
           List.filter OllamaWorker.is_post (OllamaWorker.events W w)
           = [OllamaWorker.EvPost
                {| Http.url := OLLAMA_URL;
                   Http.json :=
                     Json.Object
                       [ (lit "model", Json.String MODEL_NAME);
                         (lit "messages",
                           Json.Array
                             [ Json.Object
                                 [ (lit "role", Json.String (lit "user"));
                                   (lit "content",
                                     Json.String (strip (input_line self))) ] ]);
                         (lit "stream", Json.Bool false) ];
                   Http.stream := true;
                   Http.timeout := 600 |}].
Proof.
  intros Hidle Hs.
  destruct (strip_spec _ Hs) as (pre & post & Hsplit & Hpre & Hpost & Hfirst & Hlast).
  split; [exists pre, post; auto|]. split; [exact Hfirst|]. split; [exact Hlast|].
  destruct Hfirst as (c & rest & Hmsg & _).
  rewrite (send_branch self c rest Hidle Hmsg), Hmsg. cbn.
  split; [reflexivity|]. split; [reflexivity|].
  exists (OllamaWorker.start (OllamaWorker.new (c :: rest))).
  split; [apply list_lookup_middle; reflexivity|].
  split; [reflexivity|]. split; [reflexivity|].
  intros W HW.
  exact (first_post W (OllamaWorker.start (OllamaWorker.new (c :: rest))) eq_refl HW).
Qed.

(** C9. A request that is not cancelled and whose content is the empty
    string: its one signal, delivered to the window, makes the window
    idle and changes nothing else; no bubble is added and the typing
    timer is not started.  When no earlier animation is unfinished, what
    the user sees is what a cancel would have shown. *)
Theorem empty_result_shows_nothing W w self :
  OllamaWorker.never_stopped W ->
  OllamaWorker.stop_requested w = false ->
  OllamaWorker.answer W (OllamaWorker.prompt w) = Ok [] ->
  deliver (OllamaWorker.emitted (OllamaWorker.events W w)) self
  = set_send_btn send_icon (set_ai_thinking false self)
  /\ (ai_thinking self = true ->
      typing_timer self = false ->
      (forall b bubble, current_bubble_label self = Some b ->
                        chat_layout self !! b = Some bubble ->
                        text_label bubble = pending_text self) ->
      visible (deliver (OllamaWorker.emitted (OllamaWorker.events W w)) self)
      = visible (handle_send_or_stop self)).
Proof.
  intros Hquiet Hclear Hanswer.
  destruct (run_quiet W Hquiet w Hclear) as [_ Hem].
  rewrite Hem, Hanswer. cbn. split; [reflexivity|].
  intros Hbusy Htimer Hshown. rewrite (stop_branch self Hbusy).
  unfold visible. cbn. rewrite Htimer. f_equal. f_equal. f_equal.
  unfold complete_bubble.
  destruct (current_bubble_label self) as [b|] eqn:Hb; [|reflexivity].
  symmetry. apply alter_fixed. intros bubble Hbubble.
  rewrite <- (Hshown b bubble eq_refl Hbubble). destruct bubble; reflexivity.
Qed.

(** The slot of the [error] signal adds its bubble and leaves
    [ai_thinking] as it is: after an error the window is still busy until
    the handler is invoked again. *)
Lemma error_leaves_window_busy e self :
  ai_thinking (on_signal (OllamaWorker.EvEmitError e) self) = ai_thinking self
  /\ chat_layout (on_signal (OllamaWorker.EvEmitError e) self)
     = chat_layout self ++ [mkBubble (lit "Error: " ++ e) (lit "AI")].
Proof. split; reflexivity. Qed.

End WindowFacts.

(* ===================================================================== *)
(** * The theorems at concrete inputs *)
(* ===================================================================== *)

Section Concrete.
Import OllamaWorker ChatWindow Examples.

Lemma never_is_quiet post : never_stopped (mkWorld never post).
Proof. intros n. reflexivity. Qed.

(** [stop()] lands while the worker reads the body: the check after the
    first chunk finds the flag set and nothing is emitted. *)
Lemma cancelled_run_is_silent_witness :
  In (EvReadFlag true) (events (H := Reference.lib) hello_stopped_world hi_worker)
  /\ emitted (events (H := Reference.lib) hello_stopped_world hi_worker) = []
  /\ forall e, ending (H := Reference.lib) hello_stopped_world hi_worker <> Raised e.
Proof.
  assert (Hobs : In (EvReadFlag true)
                   (events (H := Reference.lib) hello_stopped_world hi_worker)).
  { vm_compute. do 5 right. left. reflexivity. }
  split; [exact Hobs|].
  apply (cancelled_run_is_silent (L := Reference.lib) hello_stopped_world hi_worker).
  right. exact Hobs.
Defined.



(** C5 as stated fails: an endpoint that answers with status 500 and
    the envelope [{message: {content: hello}}] as body gets an error
    signal, not the result [hello]; line 50 raises before the body is
    read. *)
Lemma server_error_hides_the_envelope :
  never_stopped server_error_world
  /\ (exists r, post server_error_world (request (prompt hi_worker)) = Ok r
                /\ Http.status_code r = 500%Z
                /\ Http.iter_content r 1024 = map Ok [hello_body]
                /\ (text ← Reference.utf8_decode (concat [hello_body]);
                    Reference.loads text)
                   = Ok (Json.Object
                           [(lit "message",
                             Json.Object [(lit "content", Json.String (lit "hello"))])]))
  /\ stop_requested hi_worker = false
  /\ emitted (events (H := Reference.lib) server_error_world hi_worker)
     <> [EvEmitResult (lit "hello")]
  /\ ~ In (EvEmitResult (lit "hello"))
         (events (H := Reference.lib) server_error_world hi_worker).
Proof.
  split; [apply never_is_quiet|]. split.
  - eexists. split; [reflexivity|]. split; [reflexivity|]. split; [reflexivity|].
    vm_compute. reflexivity.
  - split; [reflexivity|]. split.
    + vm_compute. discriminate.
    + vm_compute. intros Hin.
      repeat (destruct Hin as [Hin|Hin]; [discriminate Hin|]). exact Hin.
Qed.

(** The round trip: [hi] sent to an endpoint that answers status 200 and
    [{message: {content: hello}}] yields the result [hello]. *)
Lemma envelope_yields_its_content_witness :
  emitted (events (H := Reference.lib) hello_world hi_worker)
  = [EvEmitResult (lit "hello")]
  /\ ending (H := Reference.lib) hello_world hi_worker = Normal tt.
Proof.
  eapply (envelope_yields_its_content (L := Reference.lib) hello_world
            (never_is_quiet _) hi_worker
            (Http.mkResponse 200 (lit "OK") (fun _ => [Ok hello_body]))
            [hello_body]);
    [reflexivity | reflexivity | reflexivity | reflexivity
    | cbn [bytes_decode_utf8 Reference.lib]; reflexivity
    | vm_compute; reflexivity].
Defined.


Lemma blank_submit_is_ignored_witness :
  handle_send_or_stop blank_window = blank_window.
Proof.
  exact (blank_submit_is_ignored blank_window eq_refl eq_refl).
Defined.

Lemma cancel_stops_and_idles_witness :
  exists w',
    workers (handle_send_or_stop busy_window) !! 0 = Some w'
    /\ stop_requested w' = true
    /\ closed (session w') = true
    /\ isRunning w' = true
    /\ prompt w' = prompt hi_worker
    /\ ai_thinking (handle_send_or_stop busy_window) = false
    /\ send_btn (handle_send_or_stop busy_window) = send_icon
    /\ w' = OllamaWorker.mk (prompt hi_worker) true (mkSession true) true.
Proof.
  exact (cancel_stops_and_idles busy_window 0 hi_worker eq_refl eq_refl eq_refl eq_refl).
Defined.

(** C2 as stated fails: with a request in flight, a submit changes the
    window (it becomes idle and its worker is stopped). *)
Lemma submit_while_busy_changes_state :
  ai_thinking busy_window_again = true
  /\ workers busy_window_again !! 0 = Some hi_worker
  /\ isRunning hi_worker = true
  /\ handle_send_or_stop busy_window_again <> busy_window_again
  /\ ai_thinking (handle_send_or_stop busy_window_again) = false
  /\ workers (handle_send_or_stop busy_window_again) !! 0 = Some (stop hi_worker).
Proof.
  repeat split; try reflexivity.
  intros Heq. apply (f_equal ai_thinking) in Heq. vm_compute in Heq. discriminate.
Qed.

Lemma submit_while_busy_stops_instead_witness :
  length (workers (handle_send_or_stop busy_window_again)) = 1
  /\ map prompt (workers (handle_send_or_stop busy_window_again)) = [lit "hi"]
  /\ ai_worker (handle_send_or_stop busy_window_again) = Some 0
  /\ input_line (handle_send_or_stop busy_window_again) = lit "again"
  /\ length (chat_layout (handle_send_or_stop busy_window_again)) = 1
  /\ workers (handle_send_or_stop busy_window_again) = [stop hi_worker]
  /\ ai_thinking (handle_send_or_stop busy_window_again) = false
  /\ send_btn (handle_send_or_stop busy_window_again) = send_icon
  /\ typing_timer (handle_send_or_stop busy_window_again) = false
  /\ (forall r w, ai_worker busy_window_again = Some r ->
       workers busy_window_again !! r = Some w ->
       workers (handle_send_or_stop busy_window_again) !! r
       = Some (if isRunning w then stop w else w))
  /\ (forall j, ai_worker busy_window_again <> Some j ->
       workers (handle_send_or_stop busy_window_again) !! j
       = workers busy_window_again !! j).
Proof.
  exact (submit_while_busy_stops_instead busy_window_again eq_refl).
Defined.

(** C6 as stated fails: after the result [hello] has been delivered, a
    cancel changes the window (the timer stops, the bubble shows the
    whole text, the window becomes idle). *)
Lemma cancel_after_result_changes_state :
  emitted (events (H := Reference.lib) hello_world hi_worker)
  = [EvEmitResult (lit "hello")]
  /\ ai_thinking typing_window = true
  /\ handle_send_or_stop typing_window <> typing_window
  /\ typing_timer typing_window = true
  /\ typing_timer (handle_send_or_stop typing_window) = false
  /\ chat_layout typing_window !! 1 = Some (mkBubble [] (lit "AI"))
  /\ chat_layout (handle_send_or_stop typing_window) !! 1
     = Some (mkBubble (lit "hello") (lit "AI")).
Proof.
  split; [vm_compute; reflexivity|]. split; [vm_compute; reflexivity|].
  split; [|repeat split; vm_compute; reflexivity].
  intros Heq. apply (f_equal typing_timer) in Heq. vm_compute in Heq. discriminate.
Qed.

Lemma cancel_while_typing_completes_bubble_witness :
  workers (handle_send_or_stop typing_window) = workers typing_window
  /\ pending_text (handle_send_or_stop typing_window) = pending_text typing_window
  /\ length (chat_layout (handle_send_or_stop typing_window))
     = length (chat_layout typing_window)
  /\ (forall bubble, chat_layout typing_window !! 1 = Some bubble ->
       chat_layout (handle_send_or_stop typing_window) !! 1
       = Some (mkBubble (pending_text typing_window) (sender bubble)))
  /\ (forall j, j <> 1 ->
       chat_layout (handle_send_or_stop typing_window) !! j
       = chat_layout typing_window !! j)
  /\ typing_timer (handle_send_or_stop typing_window) = false
  /\ ai_thinking (handle_send_or_stop typing_window) = false
  /\ send_btn (handle_send_or_stop typing_window) = send_icon.
Proof.
  apply (cancel_while_typing_completes_bubble typing_window 1).
  - vm_compute. reflexivity.
  - vm_compute. reflexivity.
  - intros r w Hr Hw. vm_compute in Hr. injection Hr as <-.
    vm_compute in Hw. injection Hw as <-. reflexivity.
Defined.

Lemma empty_result_shows_nothing_witness :
  deliver (emitted (events (H := Reference.lib) empty_world hi_worker)) busy_window
  = set_send_btn send_icon (set_ai_thinking false busy_window)
  /\ visible (deliver (emitted (events (H := Reference.lib) empty_world hi_worker))
                busy_window)
     = visible (handle_send_or_stop busy_window).
Proof.
  destruct (empty_result_shows_nothing (L := Reference.lib) empty_world hi_worker
              busy_window (never_is_quiet _) eq_refl)
    as [Hidle Hsame].
  - vm_compute. reflexivity.
  - split; [exact Hidle|]. apply Hsame; [reflexivity|reflexivity|].
    intros b bubble Hb. vm_compute in Hb. discriminate.
Defined.

Lemma submit_sends_stripped_text_witness :
  strip (input_line padded_window) = lit "hi"
  /\ chat_layout (handle_send_or_stop padded_window)
     = [mkBubble (lit "hi") (lit "User")]
  /\ workers (handle_send_or_stop padded_window) !! 0 = Some hi_worker
  /\ List.filter is_post (events (H := Reference.lib) hello_world hi_worker)
     = [EvPost (request (lit "hi"))].
Proof.
  destruct (submit_sends_stripped_text (L := Reference.lib) padded_window
              eq_refl eq_refl)
    as (_ & _ & _ & Hchat & _ & w & Hw & Hprompt & _ & Hpost).
  split; [reflexivity|]. split; [exact Hchat|].
  assert (Hhi : w = hi_worker).
  { vm_compute in Hw. injection Hw as <-. reflexivity. }
  subst w. split; [reflexivity|]. exact (Hpost hello_world eq_refl).
Defined.

(** From the keystroke to the bubble: [hi] is submitted, the worker runs
    against the endpoint that answers [hello], its signal is delivered
    and the timer expires six times. *)
Example hi_hello_end_to_end :
  ticks 6 typing_window
  = Ok (mk [mkBubble (lit "hi") (lit "User"); mkBubble (lit "hello") (lit "AI")]
           [] send_icon false (lit "hello") 5 (Some 1) [finished hi_worker]
           (Some 0) false).
Proof. vm_compute. reflexivity. Qed.

End Concrete.

(* ===================================================================== *)
(** * More about the worker *)
(* ===================================================================== *)

Section ShapeFacts.
Import OllamaWorker Shape.
Context {L : PyLib}.
Variable W : World.

Ltac exc_step :=
  repeat match goal with
         | |- context [@mbind Exc Exc_bind ?A ?B ?f (Ok ?x)] =>
             change (@mbind Exc Exc_bind A B f (Ok x)) with (f x); cbn beta
         | |- context [@mbind Exc Exc_bind ?A ?B ?f (Raise ?e)] =>
             change (@mbind Exc Exc_bind A B f (Raise e)) with (@Raise B e)
         end.

Lemma for_chunk_shape items : forall chunks s o s',
  for_chunk W items chunks s = (o, s') ->
  exists t,
    trace s' = trace s ++ t
    /\ loop_shape items o t
    /\ (forall cs', o = Normal cs' ->
        exists cs, collect items = Ok cs /\ concat cs' = concat chunks ++ concat cs)
    /\ (forall e, o = Raised e -> collect items = Raise e).
Proof.
  induction items as [|item items IH]; intros chunks s o s' Hrun.
  - cbn in Hrun. inversion Hrun; subst. exists []. rewrite app_nil_r.
    split; [reflexivity|split; [constructor|split]].
    + intros cs' [= <-]. exists []. cbn. rewrite app_nil_r. split; reflexivity.
    + intros e [=].
  - destruct item as [chunk|e].
    + cbn in Hrun. unfold mbind, M_bind, log, read_stop_requested in Hrun.
      cbn in Hrun.
      destruct (stop_requested _) eqn:Hflag in Hrun.
      * cbn in Hrun. inversion Hrun; subst; clear Hrun. cbn.
        exists [EvChunk chunk; EvReadFlag true; EvClose].
        rewrite <- !app_assoc. cbn.
        split; [reflexivity|split; [constructor|split]]; intros ? [=].
      * apply IH in Hrun.
        destruct Hrun as (t & Ht & Hshape & Hnormal & Hraised).
        cbn in Ht. exists (EvChunk chunk :: EvReadFlag false :: t).
        rewrite Ht, <- !app_assoc. cbn.
        split; [reflexivity|split; [constructor; exact Hshape|split]].
        -- intros cs' Ho. destruct (Hnormal cs' Ho) as (cs & Hcs & Hcat).
           exists (chunk :: cs). cbn [collect]. rewrite Hcs. split; [reflexivity|].
           rewrite Hcat. destruct chunk; cbn; [reflexivity|].
           rewrite concat_app. cbn. rewrite app_nil_r, <- app_assoc. reflexivity.
        -- intros e Ho. cbn [collect]. rewrite (Hraised e Ho). reflexivity.
    + cbn in Hrun. inversion Hrun; subst. exists []. rewrite app_nil_r.
      split; [reflexivity|split; [constructor|split]].
      * intros cs' [=].
      * intros e' [= <-]. reflexivity.
Qed.

Lemma finish_shape data s :
  exists s',
    (finish W data s = (Normal tt, s') /\ trace s' = trace s ++ [EvReadFlag true])
    \/ (exists e, finish W data s = (Raised e, s')
                  /\ trace s' = trace s ++ [EvReadFlag false]
                  /\ extract data = Raise e)
    \/ (exists text, finish W data s = (Normal tt, s')
                     /\ trace s' = trace s ++ [EvReadFlag false; EvEmitResult text]
                     /\ extract data = Ok text).
Proof.
  unfold finish, extract, mbind, M_bind, Exc_bind.
  destruct (read_spec W s) as (w' & -> & _).
  destruct (stop_requested w'); cbn.
  - eexists; left; split; reflexivity.
  - destruct (Json.getitem data _) as [message|e]; cbn.
    2:{ eexists; right; left; exists e; repeat split. }
    destruct (Json.getitem message _) as [content|e]; cbn.
    2:{ eexists; right; left; exists e; repeat split. }
    destruct content; cbn;
      try solve [eexists; right; left; eexists; split; [reflexivity|split; reflexivity]].
    eexists; right; right; eexists; split; [reflexivity|split; [|reflexivity]].
    cbn. rewrite <- app_assoc. reflexivity.
Qed.

Lemma body_shapes r s :
  exists t,
    trace (snd (body W r s)) = trace s ++ t
    /\ body_shape r (fst (body W r s)) t.
Proof.
  unfold body, mbind, M_bind.
  destruct (read_spec W s) as (w' & -> & _).
  destruct (stop_requested w'); cbn.
  { exists [EvReadFlag true; EvClose]. rewrite <- app_assoc.
    split; [reflexivity|constructor]. }
  destruct (Http.raise_for_status _ r) as [[]|e] eqn:Hstatus; cbn.
  2:{ exists [EvReadFlag false]. split; [reflexivity|]. constructor.
      unfold reply. rewrite Hstatus. reflexivity. }
  match goal with |- context [for_chunk W ?i ?c ?st] =>
    destruct (for_chunk W i c st) as [o s1] eqn:Hloop end.
  apply for_chunk_shape in Hloop.
  destruct Hloop as (t & Ht & Hshape & Hnormal & Hraised). cbn in Ht.
  destruct o as [chunks|e|]; cbn.
  - destruct (Hnormal chunks eq_refl) as (cs & Hcs & Hcat). cbn in Hcat.
    assert (Hwhole : loop_whole (Http.iter_content r 1024) t) by (exists chunks; exact Hshape).
    assert (Hreply : reply r = (text ← bytes_decode_utf8 (concat chunks);
                                data ← json_loads text; extract data)).
    { unfold reply. rewrite Hstatus. exc_step. rewrite Hcs. exc_step.
      rewrite Hcat. reflexivity. }
    destruct (bytes_decode_utf8 (concat chunks)) as [text|e]; cbn; cbn in Hreply.
    2:{ exists (EvReadFlag false :: EvIterContent 1024 :: t).
        rewrite Ht, <- !app_assoc. split; [reflexivity|].
        apply bs_body_raises; assumption. }
    destruct (json_loads text) as [data|e]; cbn; cbn in Hreply.
    2:{ exists (EvReadFlag false :: EvIterContent 1024 :: t).
        rewrite Ht, <- !app_assoc. split; [reflexivity|].
        apply bs_body_raises; assumption. }
    destruct (finish_shape data s1)
      as (s2 & [[-> Hf]|[(e & -> & Hf & Hx)|(text' & -> & Hf & Hx)]]);
      cbn; rewrite Hf, Ht, <- !app_assoc; cbn.
    + exists (EvReadFlag false :: EvIterContent 1024 :: t ++ [EvReadFlag true]).
      split; [reflexivity|]. apply bs_late_stop; assumption.
    + exists (EvReadFlag false :: EvIterContent 1024 :: t ++ [EvReadFlag false]).
      split; [reflexivity|]. apply bs_emit_raises; congruence.
    + exists (EvReadFlag false :: EvIterContent 1024 :: t
                ++ [EvReadFlag false; EvEmitResult text']).
      split; [reflexivity|]. apply bs_result; congruence.
  - exists (EvReadFlag false :: EvIterContent 1024 :: t).
    rewrite Ht, <- !app_assoc. split; [reflexivity|].
    apply bs_read_raises; [exact Hshape|].
    unfold reply. rewrite Hstatus. exc_step. rewrite (Hraised e eq_refl). reflexivity.
  - exists (EvReadFlag false :: EvIterContent 1024 :: t).
    rewrite Ht, <- !app_assoc. split; [reflexivity|].
    apply bs_chunk; assumption.
Qed.

(** Every execution of [run] has one of the shapes; its first event is
    the check at entry. *)
Lemma run_shapes w :
  run_shape W (prompt w) (ending W w) (events W w)
  /\ exists rest,
      events W w = EvReadFlag (stop_requested (current W (enter w))) :: rest.
Proof.
  unfold ending, events. rewrite run_blocks. unfold mbind, M_bind.
  unfold read_stop_requested at 1 2 3.
  pose proof (current_prompt W (enter w)) as Hp. cbn [self enter] in Hp.
  destruct (stop_requested (current W (enter w))); cbn.
  { split; [constructor|eexists; reflexivity]. }
  unfold try_except, attempt, session_post, get_self, log, mbind, M_bind. cbn.
  rewrite Hp.
  destruct (post W (request (prompt w))) as [r|e] eqn:Hpost; cbn.
  2:{ match goal with |- context [handler W e ?st] =>
        destruct (handler_path W e st) as (b & s' & -> & Hh) end.
      cbn in *. rewrite Hh.
      split; [apply rs_post_raises; exact Hpost|eexists; reflexivity]. }
  unfold with_response.
  match goal with |- context [body W r ?st] =>
    destruct (body_shapes r st) as (t & Ht & Hb);
    destruct (body W r st) as [o s1] end.
  cbn in Ht, Hb.
  destruct o as [[]|e|]; cbn.
  - rewrite Ht. cbn. split; [|eexists; reflexivity].
    apply (rs_body W _ r); [exact Hpost|exact Hb|discriminate].
  - match goal with |- context [handler W e ?st] =>
      destruct (handler_path W e st) as (b & s' & -> & Hh) end.
    cbn in *. rewrite Hh, Ht. cbn. rewrite <- !app_assoc.
    split; [|eexists; reflexivity].
    apply (rs_body_raises W _ r); assumption.
  - rewrite Ht. cbn. split; [|eexists; reflexivity].
    apply (rs_body W _ r); [exact Hpost|exact Hb|discriminate].
Qed.

Lemma loop_shape_events items o t : loop_shape items o t -> Forall loop_event t.
Proof. induction 1; repeat constructor; assumption. Qed.


Lemma loop_shape_checked items o t tail :
  loop_shape items o t -> chunks_checked (t ++ tail) = chunks_checked tail.
Proof. induction 1; cbn; auto. Qed.

Lemma loop_shape_no_result items o t text :
  loop_shape items o t -> ~ In (EvEmitResult text) t.
Proof.
  intros Hs Hin. apply loop_shape_events in Hs. rewrite Forall_forall in Hs.
  exact (Hs _ Hin).
Qed.





Lemma body_shape_checked r o t tail :
  body_shape r o t ->
  (forall c rest, tail <> EvChunk c :: rest) ->
  chunks_checked (t ++ tail) = chunks_checked tail.
Proof.
  intros Hb Htail.
  destruct Hb as [ | e Hr | t Hl | e t Hl Hr | e t [cs Hl] Hr | t [cs Hl]
                 | e t [cs Hl] Hr | text t [cs Hl] Hr ];
    cbn; rewrite <- ?app_assoc; rewrite ?(loop_shape_checked _ _ _ _ Hl);
    reflexivity.
Qed.

Lemma shape_checked p o tr : run_shape W p o tr -> chunks_checked tr = true.
Proof.
  destruct 1 as [ | e b Hpost | r o t Hpost Hb Hne | r e b t Hpost Hb ].
  - reflexivity.
  - destruct b; reflexivity.
  - cbn. rewrite (body_shape_checked r o t _ Hb); [reflexivity|discriminate].
  - cbn. rewrite (body_shape_checked r _ t _ Hb); [destruct b; reflexivity|].
    discriminate.
Qed.

Lemma checked_split tr : chunks_checked tr = true ->
  forall pre c post, tr = pre ++ EvChunk c :: post ->
  exists b post', post = EvReadFlag b :: post'.
Proof.
  intros Hc pre. revert tr Hc.
  induction pre as [|ev pre IH]; intros tr Hc c post ->.
  - cbn in Hc. destruct post as [|[] post]; try discriminate. eauto.
  - refine (IH (pre ++ EvChunk c :: post) _ c post eq_refl).
    cbn in Hc. destruct ev; try exact Hc.
    destruct (pre ++ EvChunk c :: post) as [|[] ?]; try discriminate; exact Hc.
Qed.

(** X2. In every execution of [run], each chunk taken from the body
    iterator is followed at once by a read of the cancellation flag: no
    two chunks are read without a check between them. *)
Theorem every_chunk_is_followed_by_a_check w pre c post :
  events W w = pre ++ EvChunk c :: post ->
  exists b post', post = EvReadFlag b :: post'.
Proof.
  intros Hsplit.
  exact (checked_split _ (shape_checked _ _ _ (proj1 (run_shapes w))) pre c post Hsplit).
Qed.



(** X4. The response is closed on every exit path: for a worker whose
    flag is clear at entry, [r.close()] is among the events exactly when
    [session.post] returned a response; when the post raised, nothing is
    closed. *)
Theorem response_is_always_closed w :
  stop_requested w = false ->
  stop_called W 0 = false ->
  (In EvClose (events W w) <-> exists r, post W (request (prompt w)) = Ok r).
Proof.
  intros Hclear Hsched. destruct (run_shapes w) as (Hs & rest & Hfirst).
  assert (Hentry : events W w <> [EvReadFlag true]).
  { intros Heq. rewrite Heq in Hfirst. inversion Hfirst as [Hflag].
    unfold current, enter in Hflag. cbn in Hflag. rewrite Hsched in Hflag.
    congruence. }
  clear Hfirst. revert Hentry.
  generalize dependent (events W w). generalize (ending W w).
  intros o tr Hs Hentry.
  destruct Hs as [ | e b Hp | r o t Hp Hb Hne | r e b t Hp Hb ].
  - congruence.
  - split.
    + intros Hin. exfalso. destruct b; cbn in Hin; intuition discriminate.
    + intros (r & Hr). congruence.
  - split; [intros _; exists r; exact Hp|]. intros _.
    right. right. apply in_app_iff. right. left. reflexivity.
  - split; [intros _; exists r; exact Hp|]. intros _.
    right. right. apply in_app_iff. right. left. reflexivity.
Qed.

(** X5. A worker whose flag is already set when the thread starts does
    nothing at all: [run] returns at its first check, without a POST,
    without a response to close and without a signal. *)
Theorem stopped_worker_issues_no_request w :
  stop_requested w = true ->
  events W w = [EvReadFlag true] /\ ending W w = Returned.
Proof.
  intros Hset. split; [exact (set_flag_read_first W w Hset)|].
  unfold ending. rewrite run_blocks. unfold mbind, M_bind.
  destruct (read_spec W (enter w)) as (w0 & -> & _ & Hsticky).
  rewrite (Hsticky Hset). reflexivity.
Qed.

(** *** [run] only reads the worker object *)

Section Keeps.
Hypothesis Hquiet : never_stopped W.














End Keeps.

End ShapeFacts.

(* ===================================================================== *)
(** * More about the window *)
(* ===================================================================== *)

Section MoreWindowFacts.
Import ChatWindow Steps.


Lemma blank_or_not s : forallb isspace s = true \/ existsb nonspace s = true.
Proof.
  induction s as [|c s [IH|IH]]; [left; reflexivity| |].
  - cbn. unfold nonspace. destruct (isspace c); [left; exact IH|right; reflexivity].
  - right. cbn. rewrite IH. apply orb_true_r.
Qed.

Lemma lstrip_fixed c rest : isspace c = false -> lstrip (c :: rest) = c :: rest.
Proof. intros Hc. cbn. rewrite Hc. reflexivity. Qed.

Lemma rstrip_fixed init c : isspace c = false -> rstrip (init ++ [c]) = init ++ [c].
Proof.
  intros Hc. unfold rstrip. rewrite rev_app_distr. cbn. rewrite Hc. cbn.
  rewrite rev_involutive. reflexivity.
Qed.

Lemma strip_idempotent s : strip (strip s) = strip s.
Proof.
  destruct (blank_or_not s) as [Hb|Hn].
  - rewrite (strip_blank s Hb). reflexivity.
  - destruct (strip_spec s Hn) as (_ & _ & _ & _ & _ & (c & rest & Hf & Hc)
                                    & (init & d & Hl & Hd)).
    unfold strip at 1. rewrite Hf, (lstrip_fixed c rest Hc), <- Hf, Hl.
    apply rstrip_fixed. exact Hd.
Qed.

Lemma strip_nonblank s c rest :
  strip s = c :: rest -> existsb nonspace s = true.
Proof.
  intros Hs. destruct (blank_or_not s) as [Hb|Hn]; [|exact Hn].
  rewrite (strip_blank s Hb) in Hs. discriminate.
Qed.

(** X8. While the window is idle, the whitespace around a text makes no
    difference to what a submit does: submitting [s] and submitting
    [s.strip()] lead to the same window (same bubble, same worker, same
    everything), for every [s] that is not blank. *)
Theorem surrounding_whitespace_is_irrelevant self s :
  ai_thinking self = false ->
  existsb nonspace s = true ->
  handle_send_or_stop (type_text (strip s) self)
  = handle_send_or_stop (type_text s self).
Proof.
  intros Hidle Hs.
  destruct (strip_spec s Hs) as (_ & _ & _ & _ & _ & (c & rest & Hf & _) & _).
  rewrite (send_branch (type_text s self) c rest Hidle Hf).
  rewrite (send_branch (type_text (strip s) self) c rest Hidle).
  - reflexivity.
  - change (strip (strip s) = c :: rest). rewrite strip_idempotent. exact Hf.
Qed.

(** X9. While the window is idle, a submit whose text is not blank makes
    the window busy: the input line is emptied, the button shows the stop
    icon, and exactly one worker is added after the existing ones, which
    are left as they are; the new worker is running with its flag clear,
    and the animation state is untouched. *)
Theorem accepted_submit_makes_busy self :
  ai_thinking self = false ->
  existsb nonspace (input_line self) = true ->
  ai_thinking (handle_send_or_stop self) = true
  /\ send_btn (handle_send_or_stop self) = stop_icon
  /\ input_line (handle_send_or_stop self) = []
  /\ workers (handle_send_or_stop self)
     = workers self
       ++ [OllamaWorker.mk (strip (input_line self)) false
             (OllamaWorker.mkSession false) true]
  /\ typing_timer (handle_send_or_stop self) = typing_timer self
  /\ pending_text (handle_send_or_stop self) = pending_text self
  /\ current_bubble_label (handle_send_or_stop self) = current_bubble_label self.
Proof.
  intros Hidle Hs.
  destruct (strip_spec _ Hs) as (_ & _ & _ & _ & _ & (c & rest & Hf & _) & _).
  rewrite (send_branch self c rest Hidle Hf), Hf. cbn. repeat split.
Qed.

(** X10. Pressing twice: after an accepted submit, invoking the handler
    again does not send anything; it stops the worker that was just
    started (flag set, session closed) and the window is idle again, with
    the user's bubble in place. *)
Theorem second_press_cancels_the_request self :
  ai_thinking self = false ->
  existsb nonspace (input_line self) = true ->
  workers (handle_send_or_stop (handle_send_or_stop self))
  = workers self
    ++ [OllamaWorker.mk (strip (input_line self)) true
          (OllamaWorker.mkSession true) true]
  /\ ai_thinking (handle_send_or_stop (handle_send_or_stop self)) = false
  /\ send_btn (handle_send_or_stop (handle_send_or_stop self)) = send_icon
  /\ length (chat_layout (handle_send_or_stop (handle_send_or_stop self)))
     = S (length (chat_layout self)).
Proof.
  intros Hidle Hs.
  destruct (strip_spec _ Hs) as (_ & _ & _ & _ & _ & (c & rest & Hf & _) & _).
  rewrite (send_branch self c rest Hidle Hf), Hf.
  rewrite stop_branch by reflexivity. cbn.
  split; [|split; [reflexivity|split; [reflexivity|]]].
  - unfold stop_owned. cbn. rewrite lookup_app_r by lia. rewrite Nat.sub_diag. cbn.
    rewrite insert_app_r_alt by lia. rewrite Nat.sub_diag. reflexivity.
  - unfold complete_bubble. cbn.
    destruct (current_bubble_label self);
      rewrite ?length_alter, length_app; cbn; lia.
Qed.

Lemma submit_like_stop self :
  ai_thinking self = true ->
  length (workers (handle_send_or_stop self)) = length (workers self)
  /\ input_line (handle_send_or_stop self) = input_line self
  /\ ai_thinking (handle_send_or_stop self) = false.
Proof.
  intros Hbusy. rewrite (stop_branch self Hbusy). cbn. split; [|split; reflexivity].
  unfold stop_owned. destruct (ai_worker self) as [r|]; [|reflexivity].
  destruct (workers self !! r) as [w|]; [|reflexivity].
  destruct (OllamaWorker.isRunning w); [apply length_insert|reflexivity].
Qed.

(** X11. After an error the window is still busy: the error slot adds
    its bubble and nothing else.  A text typed then is not sent by the
    next invocation of the handler, which only makes the window idle (no
    worker is added, the text stays in the input line); it is the
    invocation after that one which sends it. *)
Theorem error_needs_a_stop_before_next_send self e s :
  ai_thinking self = true ->
  existsb nonspace s = true ->
  ai_thinking (on_signal (OllamaWorker.EvEmitError e) self) = true
  /\ length (workers (handle_send_or_stop
               (type_text s (on_signal (OllamaWorker.EvEmitError e) self))))
     = length (workers self)
  /\ input_line (handle_send_or_stop
               (type_text s (on_signal (OllamaWorker.EvEmitError e) self))) = s
  /\ ai_thinking (handle_send_or_stop
               (type_text s (on_signal (OllamaWorker.EvEmitError e) self))) = false
  /\ exists w,
      workers (handle_send_or_stop (handle_send_or_stop
                 (type_text s (on_signal (OllamaWorker.EvEmitError e) self))))
      !! length (workers self) = Some w
      /\ OllamaWorker.prompt w = strip s
      /\ OllamaWorker.stop_requested w = false.
Proof.
  intros Hbusy Hs.
  destruct (strip_spec s Hs) as (_ & _ & _ & _ & _ & (c & rest & Hf & _) & _).
  set (s1 := type_text s (on_signal (OllamaWorker.EvEmitError e) self)).
  assert (Hb1 : ai_thinking s1 = true) by exact Hbusy.
  destruct (submit_like_stop s1 Hb1) as (Hlen & Hin & Hidle).
  split; [exact Hbusy|]. split; [exact Hlen|]. split; [exact Hin|].
  split; [exact Hidle|].
  rewrite (send_branch (handle_send_or_stop s1) c rest Hidle)
    by (rewrite Hin; exact Hf).
  cbn. exists (OllamaWorker.start (OllamaWorker.new (c :: rest))).
  rewrite <- Hf. split; [|split; reflexivity].
  assert (Hlen' : length (workers (handle_send_or_stop s1)) = length (workers self))
    by exact Hlen.
  rewrite <- Hlen'. apply list_lookup_middle. reflexivity.
Qed.

End MoreWindowFacts.

(* ===================================================================== *)
(** * The typing animation *)
(* ===================================================================== *)

Section AnimationFacts.
Import ChatWindow Steps.

Lemma ticks_app n m self :
  ticks (n + m) self = (self' ← ticks n self; ticks m self').
Proof.
  revert self. induction n as [|n IH]; intros self; [reflexivity|].
  cbn [ticks Nat.add]. unfold mbind at 1 3, Exc_bind.
  destruct (type_next_char self) as [self1|e]; [|reflexivity].
  apply IH.
Qed.

Lemma insert_after_alter {A} (f : A -> A) (l : list A) i x :
  <[i := x]> (alter f i l) = <[i := x]> l.
Proof.
  rewrite !list_insert_alter, list_alter_alter_eq. reflexivity.
Qed.

(** Typing [rest], the next characters of the pending text, into the
    current bubble. *)
Lemma ticks_type rest : forall self b shown who typed post,
  current_bubble_label self = Some b ->
  chat_layout self !! b = Some (mkBubble shown who) ->
  pending_text self = typed ++ rest ++ post ->
  typing_index self = length typed ->
  ticks (length rest) self
  = Ok (mk (<[b := mkBubble (shown ++ rest) who]> (chat_layout self))
           (input_line self) (send_btn self) (typing_timer self)
           (pending_text self) (length typed + length rest)
           (current_bubble_label self) (workers self) (ai_worker self)
           (ai_thinking self)).
Proof.
  induction rest as [|c rest IH]; intros self b shown who typed post Hb Hchat Hp Hi.
  - cbn. rewrite app_nil_r, Nat.add_0_r, <- Hi.
    rewrite (list_insert_id _ _ _ Hchat). destruct self; reflexivity.
  - cbn [ticks length]. unfold type_next_char.
    assert (Hc : pending_text self !! typing_index self = Some c).
    { rewrite Hp, Hi. apply list_lookup_middle. reflexivity. }
    assert (Hlt : (typing_index self <? length (pending_text self))%nat = true).
    { apply Nat.ltb_lt. eapply lookup_lt_Some. exact Hc. }
    rewrite Hlt, Hb, Hchat, Hc. unfold mbind, Exc_bind.
    rewrite (IH _ b (shown ++ [c]) who (typed ++ [c]) post).
    + cbn. rewrite insert_after_alter, length_app, <- !app_assoc. cbn.
      replace (length typed + 1 + length rest) with (length typed + S (length rest))
        by lia.
      rewrite ?Hb. reflexivity.
    + exact Hb.
    + cbn. rewrite list_lookup_alter_eq, Hchat. reflexivity.
    + cbn. rewrite Hp, <- app_assoc. reflexivity.
    + cbn. rewrite Hi, length_app. reflexivity.
Qed.

(** The window [start_typing_animation] leaves for a text that is not
    empty. *)
Lemma animation_start text self :
  text <> [] ->
  start_typing_animation text self
  = mk (chat_layout self ++ [mkBubble [] (lit "AI")]) (input_line self)
       (send_btn self) true text 0 (Some (length (chat_layout self)))
       (workers self) (ai_worker self) (ai_thinking self).
Proof.
  intros Htext. unfold start_typing_animation.
  destruct text as [|c text]; [congruence|]. cbn.
  unfold setText, set_typing_timer, set_chat_layout. cbn. f_equal.
  rewrite alter_app_r_alt by lia. rewrite Nat.sub_diag. reflexivity.
Qed.

Lemma animation_after typed rest self :
  typed ++ rest <> [] ->
  ticks (length typed) (start_typing_animation (typed ++ rest) self)
  = Ok (mk (chat_layout self ++ [mkBubble typed (lit "AI")]) (input_line self)
           (send_btn self) true (typed ++ rest) (length typed)
           (Some (length (chat_layout self)))
           (workers self) (ai_worker self) (ai_thinking self)).
Proof.
  intros Htext. rewrite (animation_start _ self Htext).
  rewrite (ticks_type typed _ (length (chat_layout self)) [] (lit "AI") [] rest);
    try reflexivity.
  - cbn. rewrite insert_app_r_alt by lia. rewrite Nat.sub_diag. reflexivity.
  - cbn. apply list_lookup_middle. reflexivity.
Qed.

(** X12. The typing animation ends with the whole text: for a text that
    is not empty, [len(text)] expiries of the timer after
    [start_typing_animation] leave one new AI bubble that shows exactly
    the text, with the window as busy as it was; the next expiry stops the
    timer, makes the window idle and restores the send icon.  No expiry
    raises. *)
Theorem typing_animation_completes text self :
  text <> [] ->
  ticks (length text) (start_typing_animation text self)
  = Ok (mk (chat_layout self ++ [mkBubble text (lit "AI")]) (input_line self)
           (send_btn self) true text (length text)
           (Some (length (chat_layout self)))
           (workers self) (ai_worker self) (ai_thinking self))
  /\ ticks (S (length text)) (start_typing_animation text self)
     = Ok (mk (chat_layout self ++ [mkBubble text (lit "AI")]) (input_line self)
              send_icon false text (length text)
              (Some (length (chat_layout self)))
              (workers self) (ai_worker self) false).
Proof.
  intros Htext.
  assert (Hfull := animation_after text [] self).
  rewrite app_nil_r in Hfull. specialize (Hfull Htext).
  split; [exact Hfull|].
  replace (S (length text)) with (length text + 1) by lia.
  rewrite ticks_app, Hfull. unfold mbind, Exc_bind. cbn [ticks].
  unfold type_next_char. cbn [typing_index pending_text].
  rewrite Nat.ltb_irrefl. reflexivity.
Qed.

(** X13. Stopping the animation shows what finishing it would have
    shown: in a busy window, after any [k] of the [len(text)] expiries, an
    invocation of the handler leaves the layout the completed animation
    leaves (the AI bubble with the whole text), with the timer stopped and
    the window idle. *)
Theorem stopping_animation_shows_whole_text text self k :
  text <> [] ->
  ai_thinking self = true ->
  k <= length text ->
  exists window,
    ticks k (start_typing_animation text self) = Ok window
    /\ chat_layout (handle_send_or_stop window)
       = chat_layout self ++ [mkBubble text (lit "AI")]
    /\ typing_timer (handle_send_or_stop window) = false
    /\ ai_thinking (handle_send_or_stop window) = false
    /\ pending_text (handle_send_or_stop window) = text.
Proof.
  intros Htext Hbusy Hk.
  assert (Hsplit : text = take k text ++ drop k text) by (symmetry; apply take_drop).
  assert (Hlen : length (take k text) = k) by (apply length_take_le; exact Hk).
  pose proof (animation_after (take k text) (drop k text) self) as Hrun.
  rewrite <- Hsplit, Hlen in Hrun. specialize (Hrun Htext).
  eexists. split; [exact Hrun|].
  rewrite stop_branch by exact Hbusy. cbn.
  split; [|repeat split].
  unfold complete_bubble. cbn.
  rewrite alter_app_r_alt by lia. rewrite Nat.sub_diag. reflexivity.
Qed.

End AnimationFacts.

(* ===================================================================== *)
(** * What every reachable window satisfies *)
(* ===================================================================== *)

Section InvariantFacts.
Import ChatWindow Steps.

Lemma owned_snoc {A} (l : list A) x :
  match l ++ [x] with [] => None | _ :: _ => Some (length (l ++ [x]) - 1) end
  = Some (length l).
Proof.
  destruct l; cbn; [reflexivity|]. rewrite length_app. cbn. f_equal. lia.
Qed.

Lemma owned_same {A} (l l' : list A) :
  length l = length l' ->
  match l' with [] => None | _ :: _ => Some (length l' - 1) end
  = match l with [] => None | _ :: _ => Some (length l - 1) end.
Proof. destruct l, l'; cbn; intros [=]; congruence. Qed.

Lemma stop_owned_length self : length (stop_owned self) = length (workers self).
Proof.
  unfold stop_owned. destruct (ai_worker self) as [r|]; [|reflexivity].
  destruct (workers self !! r) as [w|]; [|reflexivity].
  destruct (OllamaWorker.isRunning w); [apply length_insert|reflexivity].
Qed.

Lemma invariant_new : invariant new.
Proof.
  split; cbn;
    first [ split; discriminate | intros b [=] | congruence | lia | reflexivity ].
Qed.

Lemma invariant_press self : invariant self -> invariant (handle_send_or_stop self).
Proof.
  intros Hinv. destruct (ai_thinking self) eqn:Hbusy;
    pose proof Hinv as [Hicon Hbubble Hpending Hindex Howned].
  - rewrite (stop_branch self Hbusy). split; cbn.
    + split; discriminate.
    + intros b Hb. destruct (Hbubble b Hb) as (bubble & Hl & Hs).
      unfold complete_bubble. rewrite Hb.
      eexists. rewrite list_lookup_alter_eq, Hl. split; [reflexivity|exact Hs].
    + exact Hpending.
    + exact Hindex.
    + rewrite Howned. symmetry. apply owned_same. symmetry. apply stop_owned_length.
  - destruct (strip (input_line self)) as [|c rest] eqn:Hmsg.
    + unfold handle_send_or_stop. rewrite Hbusy, Hmsg. exact Hinv.
    + rewrite (send_branch self c rest Hbusy Hmsg). split; cbn.
      * split; reflexivity.
      * intros b Hb. destruct (Hbubble b Hb) as (bubble & Hl & Hs).
        exists bubble. split; [|exact Hs].
        rewrite lookup_app_l; [exact Hl|]. eapply lookup_lt_Some. exact Hl.
      * exact Hpending.
      * exact Hindex.
      * symmetry. apply owned_snoc.
Qed.

Lemma invariant_signal ev self :
  invariant self -> invariant (on_signal ev self).
Proof.
  intros Hinv. pose proof Hinv as [Hicon Hbubble Hpending Hindex Howned].
  destruct ev as [| | | | |text|e]; try exact Hinv.
  - destruct text as [|c text].
    + split; cbn; try assumption. split; discriminate.
    + cbn [on_signal]. rewrite animation_start by discriminate. split; cbn.
      * exact Hicon.
      * intros b [= <-]. eexists. split; [apply list_lookup_middle; reflexivity|].
        reflexivity.
      * intros _. eexists. reflexivity.
      * lia.
      * exact Howned.
  - split; cbn; try assumption.
    intros b Hb. destruct (Hbubble b Hb) as (bubble & Hl & Hs).
    exists bubble. split; [|exact Hs].
    rewrite lookup_app_l; [exact Hl|]. eapply lookup_lt_Some. exact Hl.
Qed.

(** In a window that satisfies the invariant the timer's slot does not
    raise, and it keeps the invariant. *)
Lemma invariant_tick self :
  invariant self ->
  exists self', type_next_char self = Ok self' /\ invariant self'.
Proof.
  intros [Hicon Hbubble Hpending Hindex Howned]. unfold type_next_char.
  destruct (typing_index self <? length (pending_text self))%nat eqn:Hlt.
  - apply Nat.ltb_lt in Hlt.
    destruct (Hpending) as [b Hb].
    { intros Hnil. rewrite Hnil in Hlt. cbn in Hlt. lia. }
    destruct (Hbubble b Hb) as (bubble & Hl & Hs).
    rewrite Hb, Hl.
    destruct (pending_text self !! typing_index self) as [c|] eqn:Hc.
    2:{ apply lookup_ge_None in Hc. lia. }
    eexists. split; [reflexivity|]. split; cbn.
    + exact Hicon.
    + intros b' Hb'. rewrite Hb in Hb'. injection Hb' as <-.
      eexists. rewrite list_lookup_alter_eq, Hl. split; [reflexivity|exact Hs].
    + exact Hpending.
    + lia.
    + exact Howned.
  - eexists. split; [reflexivity|]. split; cbn; try assumption.
    split; discriminate.
Qed.

Lemma invariant_step self self' : invariant self -> step self self' -> invariant self'.
Proof.
  intros Hinv Hstep. destruct Hstep as [text self|self|ev self Hev|self self' Ht Hrun|r self].
  - destruct Hinv. split; assumption.
  - exact (invariant_press self Hinv).
  - exact (invariant_signal ev self Hinv).
  - destruct (invariant_tick self Hinv) as (self1 & Hrun1 & Hinv1). congruence.
  - destruct Hinv as [Hicon Hbubble Hpending Hindex Howned]. split; cbn; try assumption.
    rewrite Howned. symmetry. apply owned_same. symmetry. apply length_alter.
Qed.

Lemma reachable_is_invariant self : reachable self -> invariant self.
Proof.
  unfold reachable. intros Hs. remember new as s0 eqn:Hs0.
  induction Hs as [s|s s1 s2 _ IH Hstep]; subst.
  - exact invariant_new.
  - exact (invariant_step _ _ (IH eq_refl) Hstep).
Qed.

(** X14. In every window the program can reach, the button shows the
    stop icon exactly when the window is busy, the current bubble (if
    any) is an AI bubble of the layout, a pending text that is not empty
    has a current bubble, the typing index is within the pending text, and
    the window owns the worker it created last (none if it created none). *)
Theorem reachable_invariant self :
  reachable self ->
  (send_btn self = stop_icon <-> ai_thinking self = true)
  /\ (forall b, current_bubble_label self = Some b ->
      exists bubble, chat_layout self !! b = Some bubble
                     /\ sender bubble = lit "AI")
  /\ (pending_text self <> [] -> is_Some (current_bubble_label self))
  /\ typing_index self <= length (pending_text self)
  /\ ai_worker self
     = match workers self with
       | [] => None
       | _ :: _ => Some (length (workers self) - 1)
       end.
Proof.
  intros Hr. destruct (reachable_is_invariant self Hr). repeat split; tauto.
Qed.

(** X15. In no window the program can reach does the timer's slot
    raise: the bubble and the character it needs are there. *)
Theorem tick_never_raises self :
  reachable self -> exists self', type_next_char self = Ok self'.
Proof.
  intros Hr. destruct (invariant_tick self (reachable_is_invariant self Hr))
    as (self' & Hrun & _).
  exists self'. exact Hrun.
Qed.

(** One step keeps every bubble in its place with its sender, and keeps
    the text of every bubble that is not an AI bubble. *)
Lemma step_keeps_bubbles self self' i bubble :
  invariant self -> step self self' ->
  chat_layout self !! i = Some bubble ->
  exists bubble',
    chat_layout self' !! i = Some bubble'
    /\ sender bubble' = sender bubble
    /\ (sender bubble <> lit "AI" -> bubble' = bubble).
Proof.
  intros Hinv Hstep Hl.
  assert (Hkeep : exists bubble', chat_layout self !! i = Some bubble'
            /\ sender bubble' = sender bubble
            /\ (sender bubble <> lit "AI" -> bubble' = bubble))
    by (exists bubble; auto).
  assert (Happ : forall tail, exists bubble',
            (chat_layout self ++ tail) !! i = Some bubble'
            /\ sender bubble' = sender bubble
            /\ (sender bubble <> lit "AI" -> bubble' = bubble)).
  { intros tail. exists bubble.
    rewrite lookup_app_l; [auto|]. eapply lookup_lt_Some. exact Hl. }
  assert (Halter : forall b text, current_bubble_label self = Some b ->
            exists bubble',
              alter (fun x => mkBubble text (sender x)) b (chat_layout self) !! i
              = Some bubble'
              /\ sender bubble' = sender bubble
              /\ (sender bubble <> lit "AI" -> bubble' = bubble)).
  { intros b text Hb. destruct (decide (b = i)) as [->|Hne].
    - rewrite list_lookup_alter_eq, Hl. eexists. split; [reflexivity|].
      split; [reflexivity|]. intros Hnot.
      destruct (inv_bubble self Hinv i Hb) as (x & Hx & Hs). congruence.
    - rewrite list_lookup_alter_ne by exact Hne. exact Hkeep. }
  destruct Hstep as [text self|self|ev self Hev|self self' Ht Hrun|r self].
  - exact Hkeep.
  - destruct (ai_thinking self) eqn:Hbusy.
    + rewrite (stop_branch self Hbusy). cbn. unfold complete_bubble.
      destruct (current_bubble_label self) as [b|] eqn:Hb; [|exact Hkeep].
      exact (Halter b _ eq_refl).
    + destruct (strip (input_line self)) as [|c rest] eqn:Hmsg.
      * unfold handle_send_or_stop. rewrite Hbusy, Hmsg. exact Hkeep.
      * rewrite (send_branch self c rest Hbusy Hmsg). cbn. apply Happ.
  - destruct ev as [| | | | |text|e]; try exact Hkeep.
    + destruct text as [|c text]; [exact Hkeep|].
      cbn [on_signal]. rewrite animation_start by discriminate. cbn. apply Happ.
    + cbn. apply Happ.
  - unfold type_next_char in Hrun.
    destruct (typing_index self <? length (pending_text self))%nat.
    + destruct (current_bubble_label self) as [b|] eqn:Hb; [|discriminate].
      destruct (chat_layout self !! b) as [x|] eqn:Hx; [|discriminate].
      destruct (pending_text self !! typing_index self) as [c|]; [|discriminate].
      injection Hrun as <-. cbn. exact (Halter b _ eq_refl).
    + injection Hrun as <-. exact Hkeep.
  - exact Hkeep.
Qed.

Lemma steps_reachable self self' : reachable self -> steps self self' -> reachable self'.
Proof.
  unfold reachable. intros Hr Hs. induction Hs as [|s s1 s2 _ IH Hstep]; [exact Hr|].
  eapply steps_more; [exact (IH Hr)|exact Hstep].
Qed.

(** X16. The conversation is never rewritten: from a window the program
    can reach, whatever happens next, every bubble stays at its place with
    its sender, and a bubble that is not an AI bubble (what the user sent)
    keeps its text for good. *)
Theorem history_is_permanent self self' i bubble :
  reachable self ->
  steps self self' ->
  chat_layout self !! i = Some bubble ->
  exists bubble',
    chat_layout self' !! i = Some bubble'
    /\ sender bubble' = sender bubble
    /\ (sender bubble <> lit "AI" -> bubble' = bubble).
Proof.
  intros Hr Hs Hl. induction Hs as [s|s s1 s2 Hs IH Hstep].
  - exists bubble. auto.
  - destruct (IH Hr Hl) as (b1 & Hl1 & Hs1 & Hsame1).
    pose proof (reachable_is_invariant _ (steps_reachable _ _ Hr Hs)) as Hinv1.
    destruct (step_keeps_bubbles s1 s2 i b1 Hinv1 Hstep Hl1) as (b2 & Hl2 & Hs2 & Hsame2).
    exists b2. split; [exact Hl2|]. split; [congruence|].
    intros Hnot. rewrite <- (Hsame1 Hnot). apply Hsame2. congruence.
Qed.

Lemma step_keeps_workers self self' r w :
  step self self' ->
  workers self !! r = Some w ->
  exists w',
    workers self' !! r = Some w'
    /\ OllamaWorker.prompt w' = OllamaWorker.prompt w
    /\ (OllamaWorker.stop_requested w = true -> OllamaWorker.stop_requested w' = true)
    /\ (OllamaWorker.stop_requested w' = true ->
        OllamaWorker.stop_requested w = true \/ ai_worker self = Some r).
Proof.
  intros Hstep Hw.
  assert (Hkeep : exists w', workers self !! r = Some w'
            /\ OllamaWorker.prompt w' = OllamaWorker.prompt w
            /\ (OllamaWorker.stop_requested w = true ->
                OllamaWorker.stop_requested w' = true)
            /\ (OllamaWorker.stop_requested w' = true ->
                OllamaWorker.stop_requested w = true \/ ai_worker self = Some r))
    by (exists w; auto).
  destruct Hstep as [text self|self|ev self Hev|self self' Ht Hrun|r0 self].
  - exact Hkeep.
  - destruct (ai_thinking self) eqn:Hbusy.
    + rewrite (stop_branch self Hbusy). cbn. unfold stop_owned.
      destruct (ai_worker self) as [r0|] eqn:Hr0; [|exact Hkeep].
      destruct (workers self !! r0) as [w0|] eqn:Hw0; [|exact Hkeep].
      destruct (OllamaWorker.isRunning w0); [|exact Hkeep].
      destruct (decide (r0 = r)) as [->|Hne].
      * rewrite list_lookup_insert_eq by (eapply lookup_lt_Some; exact Hw).
        assert (w0 = w) by congruence. subst w0.
        eexists. split; [reflexivity|]. cbn. auto.
      * rewrite list_lookup_insert_ne by exact Hne.
        exists w. repeat split; auto.
    + destruct (strip (input_line self)) as [|c rest] eqn:Hmsg.
      * unfold handle_send_or_stop. rewrite Hbusy, Hmsg. exact Hkeep.
      * rewrite (send_branch self c rest Hbusy Hmsg). cbn.
        exists w. rewrite lookup_app_l by (eapply lookup_lt_Some; exact Hw).
        repeat split; auto.
  - destruct ev as [| | | | |text|e]; try exact Hkeep.
    destruct text as [|c text]; [exact Hkeep|].
    cbn [on_signal]. rewrite animation_start by discriminate. exact Hkeep.
  - unfold type_next_char in Hrun.
    destruct (typing_index self <? length (pending_text self))%nat.
    + destruct (current_bubble_label self) as [b|]; [|discriminate].
      destruct (chat_layout self !! b) as [x|]; [|discriminate].
      destruct (pending_text self !! typing_index self) as [c|]; [|discriminate].
      injection Hrun as <-. exact Hkeep.
    + injection Hrun as <-. exact Hkeep.
  - cbn. destruct (decide (r0 = r)) as [->|Hne].
    + rewrite list_lookup_alter_eq, Hw. eexists. split; [reflexivity|].
      cbn. auto.
    + rewrite list_lookup_alter_ne by exact Hne. exists w. repeat split; auto.
Qed.

(** In the model the store of worker objects only grows, so a place in
    it keeps referring to the same object along any number of steps. *)
Lemma steps_keep_workers self self' r w :
  steps self self' ->
  workers self !! r = Some w ->
  exists w',
    workers self' !! r = Some w'
    /\ OllamaWorker.prompt w' = OllamaWorker.prompt w
    /\ (OllamaWorker.stop_requested w = true -> OllamaWorker.stop_requested w' = true).
Proof.
  intros Hs Hw. induction Hs as [s|s s1 s2 Hs IH Hstep].
  - exists w. auto.
  - destruct (IH Hw) as (w1 & Hw1 & Hp1 & Hf1).
    destruct (step_keeps_workers s1 s2 r w1 Hstep Hw1) as (w2 & Hw2 & Hp2 & Hf2 & _).
    exists w2. split; [exact Hw2|]. split; [congruence|auto].
Qed.

(** X17. No step of the window changes the prompt of a worker object or
    clears its cancellation flag: whatever happens to the window, a
    worker object found at the same place before and after has the same
    prompt, and if its flag was set it still is.  Nothing is said about
    how long a worker object lives. *)
Theorem cancellation_is_never_undone self self' r w w' :
  steps self self' ->
  workers self !! r = Some w ->
  workers self' !! r = Some w' ->
  OllamaWorker.prompt w' = OllamaWorker.prompt w
  /\ (OllamaWorker.stop_requested w = true -> OllamaWorker.stop_requested w' = true).
Proof.
  intros Hs Hw Hw'.
  destruct (steps_keep_workers self self' r w Hs Hw) as (w1 & Hw1 & Hp & Hf).
  assert (w1 = w') by congruence. subst w1. split; [exact Hp|exact Hf].
Qed.

(** X18. The window only ever stops the worker it owns: when a step
    sets the cancellation flag of a worker, that worker is the one
    [ai_worker] refers to. *)
Theorem only_the_owned_worker_is_stopped self self' r w w' :
  step self self' ->
  workers self !! r = Some w ->
  workers self' !! r = Some w' ->
  OllamaWorker.stop_requested w = false ->
  OllamaWorker.stop_requested w' = true ->
  ai_worker self = Some r.
Proof.
  intros Hstep Hw Hw' Hclear Hset.
  destruct (step_keeps_workers self self' r w Hstep Hw) as (w1 & Hw1 & _ & _ & Hwho).
  assert (w1 = w') by congruence. subst w1.
  destruct (Hwho Hset) as [Hwas|Howned]; [congruence|exact Howned].
Qed.

End InvariantFacts.

(* ===================================================================== *)
(** * The further theorems at concrete inputs *)
(* ===================================================================== *)

Section MoreConcrete.
Import OllamaWorker Shape ChatWindow Steps Examples.

Lemma every_chunk_is_followed_by_a_check_witness :
  exists b post',
    [EvReadFlag false; EvReadFlag false; EvEmitResult (lit "hello"); EvClose]
    = EvReadFlag b :: post'.
Proof.
  apply (every_chunk_is_followed_by_a_check (L := Reference.lib) hello_world hi_worker
           [EvReadFlag false; EvPost (request (lit "hi")); EvReadFlag false;
            EvIterContent 1024]
           hello_body).
  vm_compute. reflexivity.
Defined.


Lemma response_is_always_closed_witness :
  In EvClose (events (H := Reference.lib) server_error_world hi_worker)
  <-> exists r, post server_error_world (request (prompt hi_worker)) = Ok r.
Proof.
  exact (response_is_always_closed (L := Reference.lib) server_error_world hi_worker
           eq_refl eq_refl).
Defined.

Lemma stopped_worker_issues_no_request_witness :
  events (H := Reference.lib) hello_world (stop hi_worker) = [EvReadFlag true]
  /\ ending (H := Reference.lib) hello_world (stop hi_worker) = Returned.
Proof.
  exact (stopped_worker_issues_no_request (L := Reference.lib) hello_world
           (stop hi_worker) eq_refl).
Defined.



Lemma surrounding_whitespace_is_irrelevant_witness :
  handle_send_or_stop (type_text (strip (input_line padded_window)) new)
  = handle_send_or_stop (type_text (input_line padded_window) new).
Proof.
  exact (surrounding_whitespace_is_irrelevant new (input_line padded_window)
           eq_refl eq_refl).
Defined.

Lemma accepted_submit_makes_busy_witness :
  ai_thinking (handle_send_or_stop padded_window) = true
  /\ send_btn (handle_send_or_stop padded_window) = stop_icon
  /\ input_line (handle_send_or_stop padded_window) = []
  /\ workers (handle_send_or_stop padded_window)
     = workers padded_window
       ++ [OllamaWorker.mk (strip (input_line padded_window)) false
             (OllamaWorker.mkSession false) true]
  /\ typing_timer (handle_send_or_stop padded_window) = typing_timer padded_window
  /\ pending_text (handle_send_or_stop padded_window) = pending_text padded_window
  /\ current_bubble_label (handle_send_or_stop padded_window)
     = current_bubble_label padded_window.
Proof.
  exact (accepted_submit_makes_busy padded_window eq_refl eq_refl).
Defined.

Lemma second_press_cancels_the_request_witness :
  workers (handle_send_or_stop (handle_send_or_stop padded_window))
  = workers padded_window
    ++ [OllamaWorker.mk (strip (input_line padded_window)) true
          (OllamaWorker.mkSession true) true]
  /\ ai_thinking (handle_send_or_stop (handle_send_or_stop padded_window)) = false
  /\ send_btn (handle_send_or_stop (handle_send_or_stop padded_window)) = send_icon
  /\ length (chat_layout (handle_send_or_stop (handle_send_or_stop padded_window)))
     = S (length (chat_layout padded_window)).
Proof.
  exact (second_press_cancels_the_request padded_window eq_refl eq_refl).
Defined.

Lemma error_needs_a_stop_before_next_send_witness :
  ai_thinking (on_signal (EvEmitError (lit "boom")) busy_window) = true
  /\ length (workers (handle_send_or_stop
               (type_text (lit "again") (on_signal (EvEmitError (lit "boom")) busy_window))))
     = length (workers busy_window)
  /\ input_line (handle_send_or_stop
               (type_text (lit "again") (on_signal (EvEmitError (lit "boom")) busy_window)))
     = lit "again"
  /\ ai_thinking (handle_send_or_stop
               (type_text (lit "again") (on_signal (EvEmitError (lit "boom")) busy_window)))
     = false
  /\ exists w,
      workers (handle_send_or_stop (handle_send_or_stop
                 (type_text (lit "again")
                    (on_signal (EvEmitError (lit "boom")) busy_window))))
      !! length (workers busy_window) = Some w
      /\ prompt w = strip (lit "again")
      /\ stop_requested w = false.
Proof.
  exact (error_needs_a_stop_before_next_send busy_window (lit "boom") (lit "again")
           eq_refl eq_refl).
Defined.

Lemma typing_animation_completes_witness :
  ticks 5 (start_typing_animation (lit "hello") busy_window)
  = Ok (mk (chat_layout busy_window ++ [mkBubble (lit "hello") (lit "AI")])
           (input_line busy_window) (send_btn busy_window) true (lit "hello") 5
           (Some (length (chat_layout busy_window)))
           (workers busy_window) (ai_worker busy_window) (ai_thinking busy_window))
  /\ ticks 6 (start_typing_animation (lit "hello") busy_window)
     = Ok (mk (chat_layout busy_window ++ [mkBubble (lit "hello") (lit "AI")])
              (input_line busy_window) send_icon false (lit "hello") 5
              (Some (length (chat_layout busy_window)))
              (workers busy_window) (ai_worker busy_window) false).
Proof.
  refine (typing_animation_completes (lit "hello") busy_window _). discriminate.
Defined.

Lemma stopping_animation_shows_whole_text_witness :
  exists window,
    ticks 2 (start_typing_animation (lit "hello") busy_window) = Ok window
    /\ chat_layout (handle_send_or_stop window)
       = chat_layout busy_window ++ [mkBubble (lit "hello") (lit "AI")]
    /\ typing_timer (handle_send_or_stop window) = false
    /\ ai_thinking (handle_send_or_stop window) = false
    /\ pending_text (handle_send_or_stop window) = lit "hello".
Proof.
  refine (stopping_animation_shows_whole_text (lit "hello") busy_window 2 _ eq_refl _).
  - discriminate.
  - vm_compute. lia.
Defined.

Lemma busy_window_is_reachable : reachable busy_window.
Proof.
  unfold reachable, busy_window.
  eapply steps_more; [eapply steps_more; [apply steps_none|]|].
  - apply (step_type (lit "hi")).
  - apply step_press.
Qed.

Lemma typing_window_is_reachable : reachable typing_window.
Proof.
  unfold reachable.
  eapply steps_more; [eapply steps_more; [exact busy_window_is_reachable|]|].
  - apply (step_finished 0).
  - replace typing_window
      with (on_signal (EvEmitResult (lit "hello")) (thread_finished 0 busy_window))
      by (vm_compute; reflexivity).
    apply step_signal. reflexivity.
Qed.

Lemma reachable_invariant_witness :
  (send_btn typing_window = stop_icon <-> ai_thinking typing_window = true)
  /\ (forall b, current_bubble_label typing_window = Some b ->
      exists bubble, chat_layout typing_window !! b = Some bubble
                     /\ sender bubble = lit "AI")
  /\ (pending_text typing_window <> [] -> is_Some (current_bubble_label typing_window))
  /\ typing_index typing_window <= length (pending_text typing_window)
  /\ ai_worker typing_window
     = match workers typing_window with
       | [] => None
       | _ :: _ => Some (length (workers typing_window) - 1)
       end.
Proof.
  exact (reachable_invariant typing_window typing_window_is_reachable).
Defined.

Lemma tick_never_raises_witness :
  exists self', type_next_char typing_window = Ok self'.
Proof.
  exact (tick_never_raises typing_window typing_window_is_reachable).
Defined.

Lemma history_is_permanent_witness :
  exists bubble',
    chat_layout typing_window !! 0 = Some bubble'
    /\ sender bubble' = sender (mkBubble (lit "hi") (lit "User"))
    /\ (sender (mkBubble (lit "hi") (lit "User")) <> lit "AI" ->
        bubble' = mkBubble (lit "hi") (lit "User")).
Proof.
  refine (history_is_permanent busy_window typing_window 0
            (mkBubble (lit "hi") (lit "User")) busy_window_is_reachable _ eq_refl).
  eapply steps_more; [eapply steps_more; [apply steps_none|]|].
  - apply (step_finished 0).
  - replace typing_window
      with (on_signal (EvEmitResult (lit "hello")) (thread_finished 0 busy_window))
      by (vm_compute; reflexivity).
    apply step_signal. reflexivity.
Defined.

Lemma cancellation_is_never_undone_witness :
  prompt (finished (stop hi_worker)) = prompt (stop hi_worker)
  /\ (stop_requested (stop hi_worker) = true ->
      stop_requested (finished (stop hi_worker)) = true).
Proof.
  refine (cancellation_is_never_undone (handle_send_or_stop busy_window)
            (thread_finished 0 (handle_send_or_stop busy_window)) 0
            (stop hi_worker) (finished (stop hi_worker)) _ eq_refl eq_refl).
  eapply steps_more; [apply steps_none|apply step_finished].
Defined.

Lemma only_the_owned_worker_is_stopped_witness :
  ai_worker busy_window = Some 0.
Proof.
  exact (only_the_owned_worker_is_stopped busy_window (handle_send_or_stop busy_window)
           0 hi_worker (stop hi_worker) (step_press busy_window)
           eq_refl eq_refl eq_refl eq_refl).
Defined.

End MoreConcrete.
